(** * Test_news: the GithubDB document store and the feed collector

    A shallow embedding of [src/github_db.py] (class [GithubDB]) and of
    [fetch_news] from [src/app.py], followed by the properties of the
    persistence layer and of the collector.

    Python values are an inductive type with Python's truthiness; the
    remote repository and the local filesystem are finite maps from paths
    to contents; exceptions are values of a result type threaded through a
    small state-and-exception monad.  The [json] module, PyGithub and
    feedparser are libraries outside the repository: the JSON codec is a
    parameter of the store (with a reference instance to compute with),
    the GitHub contents API is the path-addressed blob store with version
    tokens that the store is written against, and the parsed feeds are an
    argument of the collector. *)

From Stdlib Require Import ZArith NArith Ascii String List Bool Lia.
From Stdlib Require Import DecimalString.
From stdpp Require Import gmap strings list.

Local Open Scope Z_scope.

(** ** Python values *)

(** The objects the store handles: [None], booleans, integers, strings,
    lists, dictionaries (insertion ordered) and [VObject], any object the
    JSON encoder has no encoding for (a [set], a [datetime], ...). *)
#[warnings="-register-all"]
Inductive value : Type :=
| VNone
| VBool (b : bool)
| VInt (z : Z)
| VStr (s : string)
| VList (l : list value)
| VDict (l : list (string * value))
| VObject.

(** Truth value testing: [if v:] *)
Definition truthy (v : value) : bool :=
  match v with
  | VNone => false
  | VBool b => b
  | VInt z => negb (z =? 0)
  | VStr s => negb (String.eqb s "")
  | VList l => match l with [] => false | _ => true end
  | VDict l => match l with [] => false | _ => true end
  | VObject => true
  end.

(** [a or b] *)
Definition py_or (a b : value) : value := if truthy a then a else b.

(** The empty document [{}] *)
Definition empty_dict : value := VDict [].

(** ** Exceptions and results *)

Inductive exn : Type :=
| GithubException (status : Z)
| OSError
| TypeError
| JSONDecodeError
| ConnectionError
| AttributeError.

Inductive result (A : Type) : Type :=
| Ret (a : A)
| Raise (e : exn).
Arguments Ret {A} a.
Arguments Raise {A} e.

(** ** Reference JSON codec

    [json_encode] follows [json.dump(..., indent=4, ensure_ascii=False)]:
    it returns the text emitted and whether encoding completed; when it
    did not (a [VObject] was met, [TypeError]) the text is what had been
    emitted up to that point.  [json_loads] reads that language back. *)
Module Json.

Definition newline : ascii := ascii_of_nat 10.
Definition dquote : ascii := ascii_of_nat 34.
Definition backslash : ascii := ascii_of_nat 92.

Fixpoint spaces (n : nat) : string :=
  match n with
  | O => ""
  | S n => String " " (spaces n)
  end.

Definition newline_indent (level : nat) : string :=
  String newline (spaces (4 * level)).

Definition hex_digit (n : nat) : ascii :=
  if (n <? 10)%nat then ascii_of_nat (48 + n) else ascii_of_nat (87 + n).

Definition escape_char (c : ascii) : string :=
  let n := nat_of_ascii c in
  if (n =? 34)%nat then String backslash (String dquote "")
  else if (n =? 92)%nat then String backslash (String backslash "")
  else if (n =? 10)%nat then String backslash "n"
  else if (n =? 13)%nat then String backslash "r"
  else if (n =? 9)%nat then String backslash "t"
  else if (n =? 8)%nat then String backslash "b"
  else if (n =? 12)%nat then String backslash "f"
  else if (n <? 32)%nat then
    String backslash "u00"
    +:+ String (hex_digit (n / 16)) (String (hex_digit (n mod 16)) "")
  else String c "".

Fixpoint escape (s : string) : string :=
  match s with
  | EmptyString => ""
  | String c r => escape_char c +:+ escape r
  end.

Definition quote (s : string) : string :=
  String dquote (escape s) +:+ String dquote "".

Definition string_of_Z (z : Z) : string := NilZero.string_of_int (Z.to_int z).

Fixpoint encode_at (level : nat) (v : value) : string * bool :=
  match v with
  | VNone => ("null", true)
  | VBool true => ("true", true)
  | VBool false => ("false", true)
  | VInt z => (string_of_Z z, true)
  | VStr s => (quote s, true)
  | VObject => ("", false)
  | VList [] => ("[]", true)
  | VList l =>
      let fix items (first : bool) (l : list value) : string * bool :=
        match l with
        | [] => ("", true)
        | x :: r =>
            let sep := (if first then "" else ",") +:+ newline_indent (S level) in
            let '(sx, ok) := encode_at (S level) x in
            if ok then
              let '(sr, okr) := items false r in (sep +:+ sx +:+ sr, okr)
            else (sep +:+ sx, false)
        end in
      let '(body, ok) := items true l in
      if ok then ("[" +:+ body +:+ newline_indent level +:+ "]", true)
      else ("[" +:+ body, false)
  | VDict [] => ("{}", true)
  | VDict l =>
      let fix members (first : bool) (l : list (string * value)) : string * bool :=
        match l with
        | [] => ("", true)
        | (k, x) :: r =>
            let sep := (if first then "" else ",") +:+ newline_indent (S level) in
            let '(sx, ok) := encode_at (S level) x in
            let item := sep +:+ quote k +:+ ": " +:+ sx in
            if ok then
              let '(sr, okr) := members false r in (item +:+ sr, okr)
            else (item, false)
        end in
      let '(body, ok) := members true l in
      if ok then ("{" +:+ body +:+ newline_indent level +:+ "}", true)
      else ("{" +:+ body, false)
  end.

Definition json_encode (v : value) : string * bool := encode_at 0 v.

(** *** Decoder *)

Definition is_ws (c : ascii) : bool :=
  let n := nat_of_ascii c in
  (n =? 32)%nat || (n =? 10)%nat || (n =? 13)%nat || (n =? 9)%nat.

Definition is_digit (c : ascii) : bool :=
  let n := nat_of_ascii c in (48 <=? n)%nat && (n <=? 57)%nat.

Fixpoint skip_ws (s : string) : string :=
  match s with
  | String c r => if is_ws c then skip_ws r else s
  | EmptyString => s
  end.

Fixpoint expect (lit s : string) : option string :=
  match lit, s with
  | EmptyString, _ => Some s
  | String a lit', String b s' => if Ascii.eqb a b then expect lit' s' else None
  | String _ _, EmptyString => None
  end.

Fixpoint span_digits (s : string) : string * string :=
  match s with
  | String c r =>
      if is_digit c then let '(d, rest) := span_digits r in (String c d, rest)
      else ("", s)
  | EmptyString => ("", "")
  end.

Definition hex_value (c : ascii) : option nat :=
  let n := nat_of_ascii c in
  if (48 <=? n)%nat && (n <=? 57)%nat then Some (n - 48)%nat
  else if (97 <=? n)%nat && (n <=? 102)%nat then Some (n - 87)%nat
  else if (65 <=? n)%nat && (n <=? 70)%nat then Some (n - 55)%nat
  else None.

(** The body of a string literal, after the opening quote.  Escapes
    [\uXXXX] are read for code points below 128. *)
Fixpoint parse_chars (fuel : nat) (s : string) : option (string * string) :=
  match fuel with
  | O => None
  | S fuel =>
      match s with
      | EmptyString => None
      | String c r =>
          let n := nat_of_ascii c in
          if (n =? 34)%nat then Some ("", r)
          else if (n <? 32)%nat then None
          else if (n =? 92)%nat then
            match r with
            | EmptyString => None
            | String e r' =>
                let continue_with (d : ascii) (rest : string) :=
                  match parse_chars fuel rest with
                  | Some (t, rest') => Some (String d t, rest')
                  | None => None
                  end in
                let m := nat_of_ascii e in
                if (m =? 34)%nat then continue_with e r'
                else if (m =? 92)%nat then continue_with e r'
                else if (m =? 47)%nat then continue_with e r'
                else if (m =? 110)%nat then continue_with (ascii_of_nat 10) r'
                else if (m =? 114)%nat then continue_with (ascii_of_nat 13) r'
                else if (m =? 116)%nat then continue_with (ascii_of_nat 9) r'
                else if (m =? 98)%nat then continue_with (ascii_of_nat 8) r'
                else if (m =? 102)%nat then continue_with (ascii_of_nat 12) r'
                else if (m =? 117)%nat then
                  match r' with
                  | String h1 (String h2 (String h3 (String h4 rest))) =>
                      match hex_value h1, hex_value h2, hex_value h3, hex_value h4 with
                      | Some 0%nat, Some 0%nat, Some a, Some b =>
                          if (a <? 8)%nat then continue_with (ascii_of_nat (16 * a + b)) rest
                          else None
                      | _, _, _, _ => None
                      end
                  | _ => None
                  end
                else None
            end
          else
            match parse_chars fuel r with
            | Some (t, rest) => Some (String c t, rest)
            | None => None
            end
      end
  end.

Definition parse_string (s : string) : option (string * string) :=
  parse_chars (S (String.length s)) s.

Definition parse_int (s : string) : option (value * string) :=
  let '(neg, s1) :=
    match s with
    | String c r => if (nat_of_ascii c =? 45)%nat then (true, r) else (false, s)
    | EmptyString => (false, s)
    end in
  let '(d, rest) := span_digits s1 in
  match d with
  | EmptyString => None
  | String c0 d' =>
      (* no leading zero, no fraction or exponent *)
      let leading_zero :=
        (nat_of_ascii c0 =? 48)%nat && negb (String.eqb d' "") in
      let more :=
        match rest with
        | String c _ =>
            let n := nat_of_ascii c in
            (n =? 46)%nat || (n =? 101)%nat || (n =? 69)%nat
        | EmptyString => false
        end in
      if leading_zero || more then None
      else
        match NilZero.int_of_string d with
        | Some i => Some (VInt (if neg then - Z.of_int i else Z.of_int i), rest)
        | None => None
        end
  end.

Fixpoint parse_value (fuel : nat) (s : string) : option (value * string) :=
  match fuel with
  | O => None
  | S fuel =>
      match skip_ws s with
      | EmptyString => None
      | String c r as s0 =>
          let n := nat_of_ascii c in
          if (n =? 110)%nat then
            match expect "null" s0 with Some rest => Some (VNone, rest) | None => None end
          else if (n =? 116)%nat then
            match expect "true" s0 with Some rest => Some (VBool true, rest) | None => None end
          else if (n =? 102)%nat then
            match expect "false" s0 with Some rest => Some (VBool false, rest) | None => None end
          else if (n =? 34)%nat then
            match parse_string r with
            | Some (t, rest) => Some (VStr t, rest)
            | None => None
            end
          else if (n =? 91)%nat then
            match skip_ws r with
            | String c' r' as s1 =>
                if (nat_of_ascii c' =? 93)%nat then Some (VList [], r')
                else parse_items fuel s1 []
            | EmptyString => None
            end
          else if (n =? 123)%nat then
            match skip_ws r with
            | String c' r' as s1 =>
                if (nat_of_ascii c' =? 125)%nat then Some (VDict [], r')
                else parse_members fuel s1 []
            | EmptyString => None
            end
          else parse_int s0
      end
  end
with parse_items (fuel : nat) (s : string) (acc : list value)
  : option (value * string) :=
  match fuel with
  | O => None
  | S fuel =>
      match parse_value fuel s with
      | Some (v, rest) =>
          match skip_ws rest with
          | String c r =>
              let n := nat_of_ascii c in
              if (n =? 44)%nat then parse_items fuel r (v :: acc)
              else if (n =? 93)%nat then Some (VList (rev (v :: acc)), r)
              else None
          | EmptyString => None
          end
      | None => None
      end
  end
with parse_members (fuel : nat) (s : string) (acc : list (string * value))
  : option (value * string) :=
  match fuel with
  | O => None
  | S fuel =>
      match skip_ws s with
      | String c r =>
          if (nat_of_ascii c =? 34)%nat then
            match parse_string r with
            | Some (k, rest) =>
                match skip_ws rest with
                | String c1 r1 =>
                    if (nat_of_ascii c1 =? 58)%nat then
                      match parse_value fuel r1 with
                      | Some (v, rest2) =>
                          match skip_ws rest2 with
                          | String c2 r2 =>
                              let n := nat_of_ascii c2 in
                              if (n =? 44)%nat then parse_members fuel r2 ((k, v) :: acc)
                              else if (n =? 125)%nat then Some (VDict (rev ((k, v) :: acc)), r2)
                              else None
                          | EmptyString => None
                          end
                      | None => None
                      end
                    else None
                | EmptyString => None
                end
            | None => None
            end
          else None
      | EmptyString => None
      end
  end.

Definition json_loads (s : string) : option value :=
  match parse_value (2 * String.length s + 4) s with
  | Some (v, rest) =>
      match skip_ws rest with
      | EmptyString => Some v
      | String _ _ => None
      end
  | None => None
  end.

End Json.

(** ** The backing media

    The remote medium is a path-addressed store of blobs, each with a
    version token ([sha]) that changes on every commit; the local medium
    is a filesystem from paths to file contents. *)

Record blob : Type := Blob { blob_text : string; blob_sha : N }.

(** What [repo.get_contents(path)] returns: a [ContentFile]. *)
Record ContentFile : Type :=
  { cf_path : string; decoded_content : string; cf_sha : N }.

(** What the environment does at one input/output operation: nothing, a
    failure of the operation (an HTTP status reported by GitHub, a network
    or filesystem error), a concurrent writer that commits [content] at
    [path] just before the operation is served, or a failure that comes
    once the first [flushed] characters of the text being written have
    reached the file (a write error in the middle of a [json.dump]; an
    operation that writes no text simply fails). *)
Inductive event : Type :=
| Quiet
| Fault (e : exn)
| Race (path content : string)
| Partial (e : exn) (flushed : nat).

(** The operations performed on the media, with their outcomes. *)
Inductive call : Type :=
| GetContents (path : string) (r : result ContentFile)
| UpdateFile (path message content : string) (sha : N) (r : result unit)
| CreateFile (path message content : string) (r : result unit)
| OpenRead (path : string) (r : result string)
| OpenWrite (path : string) (r : result unit)
| Dump (path content : string) (r : result unit).

Record world : Type := World {
  disk : gmap string string;
  repo : gmap string blob;
  next_sha : N;
  script : list event;
  calls : list call
}.

Definition set_disk (d : gmap string string) (w : world) : world :=
  World d (repo w) (next_sha w) (script w) (calls w).

Definition set_script (s : list event) (w : world) : world :=
  World (disk w) (repo w) (next_sha w) s (calls w).

Definition log (c : call) (w : world) : world :=
  World (disk w) (repo w) (next_sha w) (script w) (calls w ++ [c]).

(** A commit gives the blob at [path] the text [content] and a new token. *)
Definition commit (path content : string) (w : world) : world :=
  World (disk w) (<[path := Blob content (next_sha w)]> (repo w))
        (N.succ (next_sha w)) (script w) (calls w).

(** The next event of the script (a script that ran out is quiet). *)
Definition next_event (w : world) : event * world :=
  match script w with
  | [] => (Quiet, w)
  | ev :: rest => (ev, set_script rest w)
  end.

Definition fault_of (ev : event) : option exn :=
  match ev with
  | Fault e | Partial e _ => Some e
  | _ => None
  end.

(** A concurrent commit lands in the repository before a remote call is
    served, a concurrent overwrite in the file before a local one is. *)
Definition interfere_repo (ev : event) (w : world) : world :=
  match ev with
  | Race path content => commit path content w
  | _ => w
  end.

Definition interfere_disk (ev : event) (w : world) : world :=
  match ev with
  | Race path content => set_disk (<[path := content]> (disk w)) w
  | _ => w
  end.

(** ** State and exceptions *)

Definition M (A : Type) : Type := world -> result A * world.

Definition ret {A} (a : A) : M A := fun w => (Ret a, w).

Definition raise {A} (e : exn) : M A := fun w => (Raise e, w).

Definition bind {A B} (m : M A) (k : A -> M B) : M B :=
  fun w =>
    match m w with
    | (Ret a, w') => k a w'
    | (Raise e, w') => (Raise e, w')
    end.

(** [try: m  except ... as e: h e]; a handler re-raises what it does not
    handle. *)
Definition try_except {A} (m : M A) (h : exn -> M A) : M A :=
  fun w =>
    match m w with
    | (Ret a, w') => (Ret a, w')
    | (Raise e, w') => h e w'
    end.

Notation "'let!' x ':=' m 'in' k" := (bind m (fun x => k))
  (at level 10, x name, m at level 100, k at level 200).

(** ** The GitHub contents API (PyGithub's [Repository]) *)

Definition get_contents (path : string) : M ContentFile :=
  fun w =>
    let '(ev, w) := next_event w in
    let w := interfere_repo ev w in
    let r :=
      match fault_of ev with
      | Some e => Raise e
      | None =>
          match repo w !! path with
          | Some b => Ret {| cf_path := path; decoded_content := blob_text b;
                             cf_sha := blob_sha b |}
          | None => Raise (GithubException 404)
          end
      end in
    (r, log (GetContents path r) w).

(** A conditional update: it commits only when [sha] is the blob's current
    token, and reports 409 otherwise. *)
Definition update_file (path message content : string) (sha : N) : M unit :=
  fun w =>
    let '(ev, w) := next_event w in
    let w := interfere_repo ev w in
    match fault_of ev with
    | Some e => (Raise e, log (UpdateFile path message content sha (Raise e)) w)
    | None =>
        match repo w !! path with
        | Some b =>
            if N.eqb (blob_sha b) sha then
              (Ret tt, log (UpdateFile path message content sha (Ret tt))
                           (commit path content w))
            else
              let e := GithubException 409 in
              (Raise e, log (UpdateFile path message content sha (Raise e)) w)
        | None =>
            let e := GithubException 404 in
            (Raise e, log (UpdateFile path message content sha (Raise e)) w)
        end
    end.

(** A creation: it commits only when no blob is at [path], and reports 422
    otherwise. *)
Definition create_file (path message content : string) : M unit :=
  fun w =>
    let '(ev, w) := next_event w in
    let w := interfere_repo ev w in
    match fault_of ev with
    | Some e => (Raise e, log (CreateFile path message content (Raise e)) w)
    | None =>
        match repo w !! path with
        | None =>
            (Ret tt, log (CreateFile path message content (Ret tt))
                         (commit path content w))
        | Some _ =>
            let e := GithubException 422 in
            (Raise e, log (CreateFile path message content (Raise e)) w)
        end
    end.

(** ** The local filesystem *)

(** [os.path.exists(path)] *)
Definition path_exists (path : string) : M bool :=
  fun w => (Ret (bool_decide (is_Some (disk w !! path))), w).

(** [open(path, 'r')] and the read of the file's text. *)
Definition open_read (path : string) : M string :=
  fun w =>
    let '(ev, w) := next_event w in
    let w := interfere_disk ev w in
    let r :=
      match fault_of ev with
      | Some e => Raise e
      | None =>
          match disk w !! path with
          | Some text => Ret text
          | None => Raise OSError
          end
      end in
    (r, log (OpenRead path r) w).

(** [open(path, 'w')]: the file is created, or truncated, when it opens. *)
Definition open_write (path : string) : M unit :=
  fun w =>
    let '(ev, w) := next_event w in
    let w := interfere_disk ev w in
    match fault_of ev with
    | Some e => (Raise e, log (OpenWrite path (Raise e)) w)
    | None =>
        (Ret tt, log (OpenWrite path (Ret tt))
                     (set_disk (<[path := EmptyString]> (disk w)) w))
    end.

(** ** The store: class [GithubDB] *)

Record GithubDB : Type := {
  use_local : bool;
  file_path : string;
  local_file_path : string
}.

(** [__init__], once the repository handle has been obtained. *)
Definition init (path : string) (local : bool) : GithubDB :=
  {| use_local := local;
     file_path := path;
     local_file_path := if local then "local_data.json" else path |}.

(** ** The collector: [fetch_news] of [app.py] *)

Module App.

(** An entry of a parsed feed; a field the feed did not give is [None]. *)
Record entry : Type := {
  title : option string;
  link : option string;
  published : option string;
  summary : option string
}.

(** What [feedparser.parse(url)] returns. *)
Record feed : Type := { bozo : bool; entries : list entry }.

(** [entry.get(key, default)] *)
Definition get (field : option string) (default : string) : string :=
  match field with
  | Some s => s
  | None => default
  end.

(** [text.startswith(k)] *)
Fixpoint starts_with (k text : string) : bool :=
  match k, text with
  | EmptyString, _ => true
  | String a k', String b text' => Ascii.eqb a b && starts_with k' text'
  | String _ _, EmptyString => false
  end.

(** [k in text] on strings *)
Fixpoint contains (k text : string) : bool :=
  starts_with k text
  || match text with
     | EmptyString => false
     | String _ rest => contains k rest
     end.

(** [f"{entry.title} {entry.get('summary', '')}"] *)
Definition text_content (t : string) (e : entry) : string :=
  t +:+ " " +:+ get (summary e) EmptyString.

(** [not keywords or any(k in text_content for k in keywords)] *)
Definition wanted (keywords : list string) (text : string) : bool :=
  match keywords with
  | [] => true
  | _ => existsb (fun k => contains k text) keywords
  end.

Definition article (t l p s : string) : value :=
  VDict [("title", VStr t); ("link", VStr l); ("published", VStr p);
         ("summary", VStr s)].

(** The inner loop over [feed.entries], lines 59-71: [articles] is the
    list being appended to, and an entry without a title or a link raises
    [AttributeError], which leaves the loop with what was appended. *)
Fixpoint scan (now : string) (keywords : list string) (es : list entry)
  (articles : list value) : result unit * list value :=
  match es with
  | [] => (Ret tt, articles)
  | e :: rest =>
      match title e with
      | None => (Raise AttributeError, articles)
      | Some t =>
          if wanted keywords (text_content t e) then
            match link e with
            | None => (Raise AttributeError, articles)
            | Some l =>
                scan now keywords rest
                  (articles ++ [article t l (get (published e) now)
                                         (get (summary e) EmptyString)])
            end
          else scan now keywords rest articles
      end
  end.

(** The outer loop, lines 52-74: a feed that fails to load or is flagged
    [bozo] is skipped; [parse] is [feedparser.parse] and [now] is
    [str(datetime.now())]. *)
Fixpoint collect (parse : string -> result feed) (now : string)
  (feeds keywords : list string) (articles : list value) : list value :=
  match feeds with
  | [] => articles
  | url :: rest =>
      let articles :=
        match parse url with
        | Raise _ => articles
        | Ret f =>
            if bozo f then articles
            else snd (scan now keywords (entries f) articles)
        end in
      collect parse now rest keywords articles
  end.

Definition fetch_news (parse : string -> result feed) (now : string)
  (feeds keywords : list string) : list value :=
  firstn 30 (collect parse now feeds keywords []).

(** *** The briefing: [analyze_with_gemini] *)

(** What leaves a function of [app.py] uncaught: a [KeyError], or one of
    the exceptions above. *)
Inductive uncaught : Type :=
| KeyError (key : string)
| ValueError
| Uncaught (e : exn).

Inductive outcome (A : Type) : Type :=
| Done (a : A)
| Crash (u : uncaught).
Arguments Done {A} a.
Arguments Crash {A} u.

(** The value at [key] in the items of a dictionary. *)
Fixpoint lookup_key (key : string) (items : list (string * value))
  : option value :=
  match items with
  | [] => None
  | (k, v) :: rest => if String.eqb k key then Some v else lookup_key key rest
  end.

(** [d[key]] for a string [key]: only a dictionary is subscriptable by a
    string. *)
Definition getitem (d : value) (key : string) : outcome value :=
  match d with
  | VDict items =>
      match lookup_key key items with
      | Some v => Done v
      | None => Crash (KeyError key)
      end
  | _ => Crash (Uncaught TypeError)
  end.

(** [f"{v}"]: a string is inserted as it is, anything else through
    [str_of], Python's [str]. *)
Definition format_value (str_of : value -> string) (v : value) : string :=
  match v with
  | VStr s => s
  | _ => str_of v
  end.

(** The loop of lines 83-84, which numbers the titles from 1:
    [news_text += f"{idx+1}. {art['title']}\n"]. *)
Fixpoint headlines (str_of : value -> string) (idx : nat)
  (articles : list value) (news_text : string) : outcome string :=
  match articles with
  | [] => Done news_text
  | art :: rest =>
      match getitem art "title" with
      | Done t =>
          headlines str_of (S idx) rest
            (news_text +:+ Json.string_of_Z (Z.of_nat idx + 1) +:+ ". "
             +:+ format_value str_of t +:+ String Json.newline EmptyString)
      | Crash u => Crash u
      end
  end.

Definition prompt_head : string := "
    당신은 전문 금융 애널리스트입니다. 아래 수집된 뉴스 헤드라인들을 바탕으로
    '오늘의 금융 시장 일일 브리핑' 리포트를 작성해주세요.
    
    [요구사항]
    1. 전체적인 시장 분위기를 한 문단으로 요약하세요.
    2. 가장 중요한 이슈 3가지를 선정하여 심층 분석하세요.
    3. 투자자에게 주는 인사이트를 'Bull'과 'Bear' 관점에서 정리하세요.
    4. 출력 형식은 Markdown으로 가독성 있게 작성하세요.
    
    [뉴스 데이터]
    ".

Definition prompt_foot : string := "
    ".

Definition no_news : string := "분석할 뉴스가 없습니다.".

Definition analysis_failed : string := "⚠️ AI 분석 중 오류가 발생했습니다: ".

(** [analyze_with_gemini(articles)], lines 77-106, with the prompts sent
    to the model besides the result.  [generate prompt] is
    [model.generate_content(prompt).text] and [message_of e] is [str(e)]. *)
Definition analyze_with_gemini (str_of : value -> string)
  (generate : string -> result string) (message_of : exn -> string)
  (articles : list value) : outcome string * list string :=
  match articles with
  | [] => (Done no_news, [])
  | _ =>
      match headlines str_of 0 articles EmptyString with
      | Crash u => (Crash u, [])
      | Done news_text =>
          let prompt := prompt_head +:+ news_text +:+ prompt_foot in
          match generate prompt with
          | Ret text => (Done text, [prompt])
          | Raise e => (Done (analysis_failed +:+ message_of e), [prompt])
          end
      end
  end.

(** *** Vocabulary of the collector's statements *)

(** The entry carries the two fields the collector reads unguarded. *)
Definition complete (e : entry) : bool :=
  match title e, link e with
  | Some _, Some _ => true
  | _, _ => false
  end.

(** The entries the collector reads at [url]: those of the feed, when it
    loaded and the parser did not flag it. *)
Definition entries_read (parse : string -> result feed) (url : string)
  : list entry :=
  match parse url with
  | Ret f => if bozo f then [] else entries f
  | Raise _ => []
  end.

(** The entries read at [url] are complete. *)
Definition clean (parse : string -> result feed) (url : string) : Prop :=
  Forall (fun e => complete e = true) (entries_read parse url).

(** The feed at [url] is passed over: it failed to load, or the parser
    flagged it. *)
Definition skipped (parse : string -> result feed) (url : string) : bool :=
  match parse url with
  | Ret f => bozo f
  | Raise _ => true
  end.

(** What the feed at [url] adds to the articles: the outer loop run on
    that feed alone. *)
Definition contribution (parse : string -> result feed) (now : string)
  (keywords : list string) (url : string) : list value :=
  collect parse now [url] keywords [].

(** The title-plus-summary text of an entry. *)
Definition text_of (e : entry) : string :=
  text_content (get (title e) EmptyString) e.

Definition matches (keywords : list string) (e : entry) : bool :=
  wanted keywords (text_of e).

(** The article made of an entry. *)
Definition to_article (now : string) (e : entry) : value :=
  article (get (title e) EmptyString) (get (link e) EmptyString)
          (get (published e) now) (get (summary e) EmptyString).

(** [k] occurs in [text]. *)
Definition occurs (k text : string) : Prop :=
  exists before after, text = before +:+ k +:+ after.


(** *** Python operations of the page's handlers *)

Definition obind {A B} (m : outcome A) (k : A -> outcome B) : outcome B :=
  match m with
  | Done a => k a
  | Crash u => Crash u
  end.

Notation "'try!' x ':=' m 'in' k" := (obind m (fun x => k))
  (at level 10, x name, m at level 100, k at level 200).

(** The items of a dictionary after [d[key] = v]: the value at an existing
    key is replaced where it stands, a new key goes to the end. *)
Fixpoint set_key (key : string) (v : value) (items : list (string * value))
  : list (string * value) :=
  match items with
  | [] => [(key, v)]
  | (k, x) :: rest =>
      if String.eqb k key then (k, v) :: rest
      else (k, x) :: set_key key v rest
  end.

(** [d[key] = v]: only a dictionary takes a string key. *)
Definition setitem (d : value) (key : string) (v : value) : outcome value :=
  match d with
  | VDict items => Done (VDict (set_key key v items))
  | _ => Crash (Uncaught TypeError)
  end.

(** [d.get(key, default)]: only a dictionary has [get]. *)
Definition dict_get (d : value) (key : string) (default : value)
  : outcome value :=
  match d with
  | VDict items =>
      Done (match lookup_key key items with
            | Some v => v
            | None => default
            end)
  | _ => Crash (Uncaught AttributeError)
  end.

(** [v + 1]: integers, and booleans as the integers 0 and 1. *)
Definition add_one (v : value) : outcome value :=
  match v with
  | VInt n => Done (VInt (n + 1))
  | VBool b => Done (VInt ((if b then 1 else 0) + 1))
  | _ => Crash (Uncaught TypeError)
  end.

(** [x == s] for a string [s]. *)
Definition is_str (s : string) (x : value) : bool :=
  match x with
  | VStr t => String.eqb t s
  | _ => false
  end.

(** [needle in container] for a string [needle]: an element of a list, a
    key of a dictionary, a substring of a string. *)
Definition py_in (needle : string) (container : value) : outcome bool :=
  match container with
  | VList xs => Done (existsb (is_str needle) xs)
  | VDict items =>
      Done (match lookup_key needle items with Some _ => true | None => false end)
  | VStr text => Done (contains needle text)
  | _ => Crash (Uncaught TypeError)
  end.

(** [l.append(v)] *)
Definition list_append (l : value) (v : value) : outcome value :=
  match l with
  | VList xs => Done (VList (xs ++ [v]))
  | _ => Crash (Uncaught AttributeError)
  end.

Fixpoint remove_first (s : string) (xs : list value) : list value :=
  match xs with
  | [] => []
  | x :: rest => if is_str s x then rest else x :: remove_first s rest
  end.

(** [l.remove(s)]: the first element equal to [s] goes. *)
Definition list_remove (l : value) (s : string) : outcome value :=
  match l with
  | VList xs =>
      if existsb (is_str s) xs then Done (VList (remove_first s xs))
      else Crash ValueError
  | _ => Crash (Uncaught AttributeError)
  end.

(** [s.startswith(('http://', 'https://'))] *)
Definition is_http_url (s : string) : bool :=
  starts_with "http://" s || starts_with "https://" s.

(** [s.endswith(suffix)] *)
Fixpoint ends_with (suffix s : string) : bool :=
  String.eqb s suffix
  || match s with
     | EmptyString => false
     | String _ rest => ends_with suffix rest
     end.

(** The days the page offers, lines 164-165 and 283-284:
    [data.get('collected_news', {})] and then
    [[k for k in collected_news.keys() if not k.endswith('_collected_at')]]. *)
Definition date_keys (data : value) : outcome (list string) :=
  try! collected := dict_get data "collected_news" (VDict []) in
  match collected with
  | VDict items =>
      Done (List.filter (fun k => negb (ends_with "_collected_at" k))
                        (map fst items))
  | _ => Crash (Uncaught AttributeError)
  end.

(** Line 225: [current_data['keywords'].append(new_keyword.strip())] *)
Definition with_keyword (current_data : value) (keyword : string)
  : outcome value :=
  try! keywords := getitem current_data "keywords" in
  try! keywords := list_append keywords (VStr keyword) in
  setitem current_data "keywords" keywords.

(** Lines 299-303: [current_data['reports'][today] = {...}] *)
Definition with_report (current_data : value) (today content stamp : string)
  (articles : list value) : outcome value :=
  let report := VDict [("content", VStr content); ("sources", VList articles);
                       ("created_at", VStr stamp)] in
  try! reports := getitem current_data "reports" in
  try! reports := setitem reports today report in
  setitem current_data "reports" reports.

(** What a handler tells the user: the change was saved, the write or the
    read failed, the input was refused, there was nothing to collect, or
    nothing at all. *)
Inductive notice : Type :=
| Saved
| SaveFailed
| LoadFailed
| Rejected
| NothingCollected
| Ignored.

(** Lines 264-267: the day's articles and the time of collection go into
    [current_data['collected_news']], which is created when missing. *)
Definition store_articles (current_data : value) (today stamp : string)
  (articles : list value) : outcome value :=
  try! present := py_in "collected_news" current_data in
  try! current_data :=
    (if present then Done current_data
     else setitem current_data "collected_news" (VDict [])) in
  try! collected := getitem current_data "collected_news" in
  try! collected := setitem collected today (VList articles) in
  try! collected :=
    setitem collected (today +:+ "_collected_at") (VStr stamp) in
  setitem current_data "collected_news" collected.

(** Line 131: [current_data['visitors'] = current_data.get('visitors', 0) + 1] *)
Definition count_one_more (current_data : value) : outcome value :=
  try! count := dict_get current_data "visitors" (VInt 0) in
  try! count := add_one count in
  setitem current_data "visitors" count.

(** Line 191: [current_data['feeds'].append(new_feed)] *)
Definition with_feed (current_data : value) (new_feed : string)
  : outcome value :=
  try! feeds := getitem current_data "feeds" in
  try! feeds := list_append feeds (VStr new_feed) in
  setitem current_data "feeds" feeds.

(** Line 210: [current_data['feeds'].remove(f)] *)
Definition without_feed (current_data : value) (f : string) : outcome value :=
  try! feeds := getitem current_data "feeds" in
  try! feeds := list_remove feeds f in
  setitem current_data "feeds" feeds.

(** The visitor count a document holds: 0 when it has none, and a boolean
    counts as 0 or 1. *)
Definition visitors_of (items : list (string * value)) : option Z :=
  match lookup_key "visitors" items with
  | None => Some 0
  | Some (VInt n) => Some n
  | Some (VBool b) => Some (if b then 1 else 0)
  | Some _ => None
  end.

(** A feed of the document: a string that starts with [http://] or
    [https://]. *)
Definition valid_feed (x : value) : Prop :=
  exists s, x = VStr s /\ is_http_url s = true.

(** The value is an article as the collector builds them. *)
Definition is_article (a : value) : Prop :=
  exists t l p s, a = article t l p s.

(** The line of the prompt for the article of index [idx] and title [t]. *)
Definition headline_line (idx : nat) (t : string) : string :=
  Json.string_of_Z (Z.of_nat idx + 1) +:+ ". " +:+ t
  +:+ String Json.newline EmptyString.

(** The title an article carries. *)
Definition title_of (a : value) : string :=
  match getitem a "title" with
  | Done (VStr t) => t
  | _ => EmptyString
  end.

(** The lines for [titles], one after the other, numbered from [idx + 1]. *)
Fixpoint headline_lines (idx : nat) (titles : list string) : string :=
  match titles with
  | [] => EmptyString
  | t :: rest => headline_line idx t +:+ headline_lines (S idx) rest
  end.


End App.

(** ** Vocabulary of the statements *)

(** The next operation meets neither a fault nor a concurrent writer. *)
Definition served_quietly (w : world) : bool :=
  match script w with
  | [] | Quiet :: _ => true
  | _ => false
  end.

(** No concurrent writer shows up in the script. *)
Definition race_free (s : list event) : bool :=
  forallb (fun ev => match ev with Race _ _ => false | _ => true end) s.

(** The operations that write to a medium, whatever their outcome. *)
Definition is_write (c : call) : bool :=
  match c with
  | GetContents _ _ | OpenRead _ _ => false
  | _ => true
  end.

(** The calls performed between two worlds. *)
Definition new_calls (w w' : world) : list call :=
  drop (length (calls w)) (calls w').

(** The medium reports that the backing blob of [self] does not exist. *)
Definition not_found (self : GithubDB) (w : world) : Prop :=
  if use_local self then disk w !! local_file_path self = None
  else fst (get_contents (file_path self) w) = Raise (GithubException 404).

(** Within the calls of one attempt, after the fetch: no second fetch, and
    an update presents the token that the fetch returned. *)
Definition presents_token (g : result ContentFile) (c : call) : Prop :=
  match c with
  | GetContents _ _ => False
  | UpdateFile _ _ _ sha _ => exists cf, g = Ret cf /\ sha = cf_sha cf
  | _ => True
  end.

(** The calls of one attempt begin with the fetch of the version token. *)
Definition fetches_first (path : string) (l : list call) : Prop :=
  exists g rest,
    l = GetContents path g :: rest /\ Forall (presents_token g) rest.

(** The outcome of an attempt that met Conflict. *)
Definition conflict : result unit := Raise (GithubException 409).


(** Every event left in the script is quiet: no fault and no concurrent
    writer from here on. *)
Definition calm (s : list event) : bool :=
  forallb (fun ev => match ev with Quiet => true | _ => false end) s.

(** The text held by the backing blob of [self], if there is one. *)
Definition persisted (self : GithubDB) (w : world) : option string :=
  if use_local self then disk w !! local_file_path self
  else blob_text <$> repo w !! file_path self.

(** The operations that reach GitHub, and those that reach the local
    filesystem. *)
Definition is_remote (c : call) : bool :=
  match c with
  | GetContents _ _ | UpdateFile _ _ _ _ _ | CreateFile _ _ _ _ => true
  | _ => false
  end.


(** The path an operation addresses. *)
Definition call_path (c : call) : string :=
  match c with
  | GetContents p _ | UpdateFile p _ _ _ _ | CreateFile p _ _ _
  | OpenRead p _ | OpenWrite p _ | Dump p _ _ => p
  end.

(** The path of the backing blob of [self], in the medium of its mode. *)
Definition blob_path (self : GithubDB) : string :=
  if use_local self then local_file_path self else file_path self.

(** [c] is an operation on the backing blob of [self], in its medium. *)
Definition on_blob (self : GithubDB) (c : call) : bool :=
  bool_decide (call_path c = blob_path self)
  && Bool.eqb (is_remote c) (negb (use_local self)).

(** From [w] to [w'] the store made at most [n] operations, all of them on
    its backing blob; it left the medium of the other mode alone, and, no
    concurrent writer being around, every other path of its own medium. *)
Definition confined (self : GithubDB) (n : nat) (w w' : world) : Prop :=
  (exists l, calls w' = calls w ++ l
             /\ Forall (fun c => on_blob self c = true) l
             /\ (length l <= n)%nat)
  /\ (if use_local self then repo w' = repo w else disk w' = disk w)
  /\ (race_free (script w) = true ->
      race_free (script w') = true
      /\ forall p, p <> blob_path self ->
                   if use_local self then disk w' !! p = disk w !! p
                   else repo w' !! p = repo w !! p).


(** The number of operations a write may take: open and dump, or up to
    three calls (fetch, update, create) per attempt. *)
Definition write_budget (self : GithubDB) (max_retries : Z) : nat :=
  if use_local self then 2 else 3 * Z.to_nat max_retries.

(** From [w] to [w'] every operation made was on the backing blob of
    [self]; the medium of the other mode is as it was, and so is, no
    concurrent writer being around, every other path of its own medium. *)
Definition kept_to_blob (self : GithubDB) (w w' : world) : Prop :=
  Forall (fun c => on_blob self c = true) (new_calls w w')
  /\ (if use_local self then repo w' = repo w else disk w' = disk w)
  /\ (race_free (script w) = true ->
      forall p, p <> blob_path self ->
                if use_local self then disk w' !! p = disk w !! p
                else repo w' !! p = repo w !! p).

(** ** Sample stores, documents and environments *)

Module Samples.

Definition github : GithubDB := init "data.json" false.
Definition local : GithubDB := init "data.json" true.

(** The seed document of the end-to-end scenario, and its successor. *)
Definition seed : value :=
  VDict [("feeds", VList []); ("keywords", VList []); ("visitors", VInt 0);
         ("reports", VDict []); ("collected_news", VDict [])].

Definition visited : value :=
  VDict [("feeds", VList [VStr "https://example.org/rss"]);
         ("keywords", VList [VStr "rate"]); ("visitors", VInt 1);
         ("reports", VDict []); ("collected_news", VDict [])].

(** A document holding an object the encoder cannot encode. *)
Definition unencodable : value :=
  VDict [("visitors", VInt 1); ("visited_at", VObject)].

Definition blank (events : list event) : world :=
  World ∅ ∅ 0 events [].

(** A repository whose blob holds [text], with token 0. *)
Definition hosted (text : string) (events : list event) : world :=
  World ∅ {[ "data.json" := Blob text 0 ]} 1 events [].

(** A filesystem whose file holds [text]. *)
Definition stored (text : string) (events : list event) : world :=
  World {[ "local_data.json" := text ]} ∅ 0 events [].

(** A concurrent writer commits between the fetch and the update of the
    first attempt. *)
Definition one_race : list event :=
  [Quiet; Race "data.json" "{ }"; Quiet; Quiet].

(** A feed flagged by the parser, with one well-formed entry, and a clean
    feed of three entries. *)
Definition headline : App.entry :=
  {| App.title := Some "Rates rise"; App.link := Some "https://example.org/1";
     App.published := Some "Mon"; App.summary := Some "The central bank" |}.

Definition other : App.entry :=
  {| App.title := Some "Weather"; App.link := Some "https://example.org/2";
     App.published := None; App.summary := None |}.

Definition parse_bozo (url : string) : result App.feed :=
  Ret {| App.bozo := true; App.entries := [headline] |}.

Definition parse_clean (url : string) : result App.feed :=
  Ret {| App.bozo := false; App.entries := [headline; other; headline] |}.

(** An entry without a title, and a feed that holds it between two
    well-formed ones. *)
Definition untitled : App.entry :=
  {| App.title := None; App.link := Some "https://example.org/3";
     App.published := None; App.summary := Some "The bank again" |}.

Definition parse_cut (url : string) : result App.feed :=
  Ret {| App.bozo := false; App.entries := [headline; untitled; headline] |}.

(** Three feeds: one that the parser flags, one cut by an entry without a
    title, and a well-formed one. *)
Definition parse_three (url : string) : result App.feed :=
  if String.eqb url "flagged" then parse_bozo url
  else if String.eqb url "cut" then parse_cut url
  else parse_clean url.

(** The text of a document with two feeds and a day of collected news. *)
Definition busy : value :=
  VDict [("feeds", VList [VStr "https://example.org/rss";
                          VStr "http://example.org/feed"]);
         ("keywords", VList []); ("visitors", VInt 41);
         ("reports", VDict []);
         ("collected_news",
          VDict [("2024-01-01", VList [App.to_article "now" headline])])].

Definition busy_text : string := fst (Json.json_encode busy).


End Samples.


Section Store.

(** The [json] module: [encode v] is the text [json.dump] emits for [v]
    with [indent=4, ensure_ascii=False] and whether it completed (it
    raises [TypeError] otherwise); [loads] is [json.loads], [None] when it
    raises. *)
Variable encode : value -> string * bool.
Variable loads : string -> option value.

(** [json.dumps(v, indent=4, ensure_ascii=False)] *)
Definition json_dumps (v : value) : M string :=
  let '(text, ok) := encode v in
  if ok then ret text else raise TypeError.

(** [json.dump(v, f, indent=4, ensure_ascii=False)] on the file opened at
    [path]: what the encoder emits reaches the file, also when the encoder
    then fails; a write error leaves in the file the beginning of that
    text that had been flushed when it came, which may be nothing. *)
Definition json_dump (v : value) (path : string) : M unit :=
  fun w =>
    let '(ev, w) := next_event w in
    let w := interfere_disk ev w in
    match ev with
    | Fault e => (Raise e, log (Dump path EmptyString (Raise e)) w)
    | Partial e flushed =>
        let part := String.substring 0 flushed (fst (encode v)) in
        let w := set_disk (<[path := part]> (disk w)) w in
        (Raise e, log (Dump path part (Raise e)) w)
    | Quiet | Race _ _ =>
        let '(text, ok) := encode v in
        let w := set_disk (<[path := text]> (disk w)) w in
        if ok then (Ret tt, log (Dump path text (Ret tt)) w)
        else (Raise TypeError, log (Dump path text (Raise TypeError)) w)
    end.

(** [json.loads(text)] *)
Definition json_loads (text : string) : M value :=
  match loads text with
  | Some v => ret v
  | None => raise JSONDecodeError
  end.

(** *** write_data *)

(** Local mode, lines 100-107. *)
Definition write_local (self : GithubDB) (new_data : value) : M bool :=
  try_except
    (let! _ := open_write (local_file_path self) in
     let! _ := json_dump new_data (local_file_path self) in
     ret true)
    (fun _ => ret false).

(** One pass through the inner [try], lines 113-132: it returns when the
    blob was updated or created, and raises otherwise. *)
Definition attempt (self : GithubDB) (new_data : value) (commit_message : string)
  : M unit :=
  try_except
    (let! contents := get_contents (file_path self) in
     let! text := json_dumps new_data in
     update_file (cf_path contents) commit_message text (cf_sha contents))
    (fun e =>
       match e with
       | GithubException status =>
           if status =? 404 then
             let! text := json_dumps new_data in
             create_file (file_path self) commit_message text
           else raise e
       | _ => raise e
       end).

(** [for attempt in range(max_retries)], lines 110-142; [todo] iterations
    are left and [attempt_no] is the loop variable. *)
Fixpoint write_loop (self : GithubDB) (new_data : value) (commit_message : string)
  (max_retries attempt_no : Z) (todo : nat) : M bool :=
  match todo with
  | O => ret false
  | S todo' =>
      try_except
        (let! _ := attempt self new_data commit_message in ret true)
        (fun e =>
           match e with
           | GithubException status =>
               if (status =? 409) && (attempt_no <? max_retries - 1) then
                 write_loop self new_data commit_message max_retries
                            (attempt_no + 1) todo'
               else ret false
           | _ => ret false
           end)
  end.

Definition write_remote (self : GithubDB) (new_data : value)
  (commit_message : string) (max_retries : Z) : M bool :=
  write_loop self new_data commit_message max_retries 0 (Z.to_nat max_retries).

Definition write_data (self : GithubDB) (new_data : value)
  (commit_message : string) (max_retries : Z) : M bool :=
  if use_local self then write_local self new_data
  else write_remote self new_data commit_message max_retries.

(** *** read_data *)

(** Local mode, lines 47-60. *)
Definition read_local (self : GithubDB) (default_data : value) : M value :=
  try_except
    (let! present := path_exists (local_file_path self) in
     if present then
       let! text := open_read (local_file_path self) in
       json_loads text
     else if truthy default_data then
       let! _ := write_data self default_data "Initialize local data.json" 3 in
       ret default_data
     else ret empty_dict)
    (fun _ => ret (py_or default_data empty_dict)).

(** GitHub mode, lines 63-95. *)
Definition read_remote (self : GithubDB) (default_data : value) : M value :=
  try_except
    (let! contents := get_contents (file_path self) in
     json_loads (decoded_content contents))
    (fun e =>
       match e with
       | GithubException status =>
           if status =? 404 then
             if truthy default_data then
               let! created := write_data self default_data "Initialize data.json" 3 in
               if created then ret default_data
               else ret (py_or default_data empty_dict)
             else ret (py_or default_data empty_dict)
           else ret VNone
       | _ => ret VNone
       end).

Definition read_data (self : GithubDB) (default_data : value) : M value :=
  if use_local self then read_local self default_data
  else read_remote self default_data.


(** *** The page's handlers, [app.py]

    The blocks of the page script that read, change and write back the
    document; each one is what runs when its button is pressed.  [data]
    is the document the page was rendered from. *)

(** The visit counter, lines 127-136: the session's flag and the page's
    document, after. *)
Definition count_visit (self : GithubDB) (visited : bool) (data : value)
  : world -> App.outcome (bool * value) * world :=
  fun w =>
    if visited then (App.Done (true, data), w)
    else
      match read_data self VNone w with
      | (Raise e, w1) => (App.Crash (App.Uncaught e), w1)
      | (Ret current_data, w1) =>
          if truthy current_data then
            match App.count_one_more current_data with
            | App.Crash u => (App.Crash u, w1)
            | App.Done current_data =>
                match write_data self current_data "Increment visitor count" 3 w1 with
                | (Raise e, w2) => (App.Crash (App.Uncaught e), w2)
                | (Ret true, w2) => (App.Done (true, current_data), w2)
                | (Ret false, w2) => (App.Done (false, data), w2)
                end
            end
          else (App.Done (false, data), w1)
      end.

(** Adding a feed, lines 184-200. *)
Definition add_feed (self : GithubDB) (data : value) (new_feed : string)
  : world -> App.outcome App.notice * world :=
  fun w =>
    if String.eqb new_feed EmptyString then (App.Done App.Ignored, w)
    else
      match App.obind (App.getitem data "feeds") (App.py_in new_feed) with
      | App.Crash u => (App.Crash u, w)
      | App.Done true => (App.Done App.Ignored, w)
      | App.Done false =>
          if App.is_http_url new_feed then
            match read_data self VNone w with
            | (Raise e, w1) => (App.Crash (App.Uncaught e), w1)
            | (Ret current_data, w1) =>
                if truthy current_data then
                  match App.with_feed current_data new_feed with
                  | App.Crash u => (App.Crash u, w1)
                  | App.Done current_data =>
                      match write_data self current_data "Add RSS feed" 3 w1 with
                      | (Raise e, w2) => (App.Crash (App.Uncaught e), w2)
                      | (Ret true, w2) => (App.Done App.Saved, w2)
                      | (Ret false, w2) => (App.Done App.SaveFailed, w2)
                      end
                  end
                else (App.Done App.LoadFailed, w1)
            end
          else (App.Done App.Rejected, w)
      end.

(** Removing the feed [f], lines 206-215. *)
Definition remove_feed (self : GithubDB) (f : string)
  : world -> App.outcome App.notice * world :=
  fun w =>
    match read_data self VNone w with
    | (Raise e, w1) => (App.Crash (App.Uncaught e), w1)
    | (Ret current_data, w1) =>
        if truthy current_data then
          match App.obind (App.getitem current_data "feeds") (App.py_in f) with
          | App.Crash u => (App.Crash u, w1)
          | App.Done false => (App.Done App.Ignored, w1)
          | App.Done true =>
              match App.without_feed current_data f with
              | App.Crash u => (App.Crash u, w1)
              | App.Done current_data =>
                  match write_data self current_data "Remove RSS feed" 3 w1 with
                  | (Raise e, w2) => (App.Crash (App.Uncaught e), w2)
                  | (Ret true, w2) => (App.Done App.Saved, w2)
                  | (Ret false, w2) => (App.Done App.SaveFailed, w2)
                  end
              end
          end
        else (App.Done App.Ignored, w1)
    end.

(** Collecting the news, lines 252-277: [feeds] and [keywords] are the
    page's [data['feeds']] and [data['keywords']], [today] is the date and
    [stamp] the time of the collection. *)
Definition collect_news (self : GithubDB) (parse : string -> result App.feed)
  (now today stamp : string) (feeds keywords : list string)
  : world -> App.outcome App.notice * world :=
  fun w =>
    match App.fetch_news parse now feeds keywords with
    | [] => (App.Done App.NothingCollected, w)
    | articles =>
        match read_data self VNone w with
        | (Raise e, w1) => (App.Crash (App.Uncaught e), w1)
        | (Ret current_data, w1) =>
            if truthy current_data then
              match App.store_articles current_data today stamp articles with
              | App.Crash u => (App.Crash u, w1)
              | App.Done current_data =>
                  match write_data self current_data
                          ("Collect news for " +:+ today) 3 w1 with
                  | (Raise e, w2) => (App.Crash (App.Uncaught e), w2)
                  | (Ret true, w2) => (App.Done App.Saved, w2)
                  | (Ret false, w2) => (App.Done App.SaveFailed, w2)
                  end
              end
            else (App.Done App.LoadFailed, w1)
        end
    end.

(** Adding a keyword, lines 220-232; [strip] is Python's [str.strip]. *)
Definition add_keyword (self : GithubDB) (strip : string -> string)
  (data : value) (new_keyword : string)
  : world -> App.outcome App.notice * world :=
  fun w =>
    if String.eqb new_keyword EmptyString then (App.Done App.Ignored, w)
    else if String.eqb (strip new_keyword) EmptyString then
      (App.Done App.Ignored, w)
    else
      match App.obind (App.getitem data "keywords") (App.py_in new_keyword) with
      | App.Crash u => (App.Crash u, w)
      | App.Done true => (App.Done App.Ignored, w)
      | App.Done false =>
          match read_data self VNone w with
          | (Raise e, w1) => (App.Crash (App.Uncaught e), w1)
          | (Ret current_data, w1) =>
              if truthy current_data then
                match App.with_keyword current_data (strip new_keyword) with
                | App.Crash u => (App.Crash u, w1)
                | App.Done current_data =>
                    match write_data self current_data "Add keyword" 3 w1 with
                    | (Raise e, w2) => (App.Crash (App.Uncaught e), w2)
                    | (Ret true, w2) => (App.Done App.Saved, w2)
                    | (Ret false, w2) => (App.Done App.SaveFailed, w2)
                    end
                end
              else (App.Done App.LoadFailed, w1)
          end
      end.

(** Generating the briefing, lines 292-315: [articles] are the page's
    [collected_news[today]]; the model is called before the document is
    read again.  The prompts sent go with the notice. *)
Definition save_report (self : GithubDB) (str_of : value -> string)
  (generate : string -> result string) (message_of : exn -> string)
  (today stamp : string) (articles : list value)
  : world -> App.outcome App.notice * list string * world :=
  fun w =>
    match App.analyze_with_gemini str_of generate message_of articles with
    | (App.Crash u, prompts) => (App.Crash u, prompts, w)
    | (App.Done report_content, prompts) =>
        match read_data self VNone w with
        | (Raise e, w1) => (App.Crash (App.Uncaught e), prompts, w1)
        | (Ret current_data, w1) =>
            if truthy current_data then
              match App.with_report current_data today report_content stamp
                      articles with
              | App.Crash u => (App.Crash u, prompts, w1)
              | App.Done current_data =>
                  match write_data self current_data
                          ("New report for " +:+ today) 3 w1 with
                  | (Raise e, w2) => (App.Crash (App.Uncaught e), prompts, w2)
                  | (Ret true, w2) => (App.Done App.Saved, prompts, w2)
                  | (Ret false, w2) => (App.Done App.SaveFailed, prompts, w2)
                  end
              end
            else (App.Done App.LoadFailed, prompts, w1)
        end
    end.

(** Reading the existing blob of [self] in [w] fails, leaving [w1]: the
    transport fails (for GitHub, with anything but "not found"), or the
    text obtained does not parse. *)
Definition fetch_fails (self : GithubDB) (w w1 : world) : Prop :=
  if use_local self then
    is_Some (disk w !! local_file_path self)
    /\ ((exists e, open_read (local_file_path self) w = (Raise e, w1))
        \/ (exists text, open_read (local_file_path self) w = (Ret text, w1)
                         /\ loads text = None))
  else
    (exists e, get_contents (file_path self) w = (Raise e, w1)
               /\ e <> GithubException 404)
    \/ (exists c, get_contents (file_path self) w = (Ret c, w1)
                  /\ loads (decoded_content c) = None).




(** ** Properties of the store *)

Lemma new_calls_app w w' l : calls w' = calls w ++ l -> new_calls w w' = l.
Proof. intros H. unfold new_calls. rewrite H. apply drop_app_length. Qed.

Lemma py_or_not_none d : py_or d empty_dict <> VNone.
Proof.
  unfold py_or. destruct (truthy d) eqn:E; [|discriminate].
  intros ->. discriminate.
Qed.

Lemma py_or_falsy d : truthy d = false -> py_or d empty_dict = empty_dict.
Proof. intros H. unfold py_or. now rewrite H. Qed.

(** C8: in GitHub mode, [write_data] with [max_retries <= 0] returns
    [False] and leaves the world as it was: no token is fetched, nothing is
    created or updated, no event of the environment is consumed. *)
Theorem write_no_retries_untouched (self : GithubDB) (new_data : value)
  (msg : string) (max_retries : Z) (w : world) :
  use_local self = false ->
  max_retries <= 0 ->
  write_data self new_data msg max_retries w = (Ret false, w).
Proof.
  intros Hremote Hle. unfold write_data, write_remote.
  rewrite Hremote.
  replace (Z.to_nat max_retries) with O by lia.
  reflexivity.
Qed.

(** C6: in GitHub mode, when fetching the blob fails with status 401 or
    403, [read_data] returns [None] (it does not raise), the only call it
    made is that fetch, and neither the repository nor the disk changed. *)
Theorem read_auth_failure (self : GithubDB) (default_data : value)
  (w : world) (status : Z) (rest : list event) :
  use_local self = false ->
  script w = Fault (GithubException status) :: rest ->
  status = 401 \/ status = 403 ->
  exists w',
    read_data self default_data w = (Ret VNone, w')
    /\ new_calls w w'
       = [GetContents (file_path self) (Raise (GithubException status))]
    /\ repo w' = repo w /\ disk w' = disk w.
Proof.
  intros Hremote Hscript Hstatus.
  unfold read_data, read_remote. rewrite Hremote.
  unfold try_except, bind, get_contents, next_event. rewrite Hscript. simpl.
  assert ((status =? 404) = false) as -> by (destruct Hstatus; subst; reflexivity).
  eexists. split; [reflexivity|]. split; [|split; reflexivity].
  apply new_calls_app. reflexivity.
Qed.

Lemma read_local_missing (self : GithubDB) (d : value) (w : world) :
  use_local self = true ->
  disk w !! local_file_path self = None ->
  truthy d = false ->
  read_data self d w = (Ret empty_dict, w).
Proof.
  intros Hlocal Hmiss Hd. unfold read_data, read_local. rewrite Hlocal.
  unfold try_except, bind, path_exists. rewrite Hmiss.
  rewrite bool_decide_eq_false_2 by (intros [? ?]; discriminate).
  rewrite Hd. reflexivity.
Qed.

Lemma read_remote_missing (self : GithubDB) (d : value) (w : world) :
  use_local self = false ->
  fst (get_contents (file_path self) w) = Raise (GithubException 404) ->
  truthy d = false ->
  read_data self d w
  = (Ret empty_dict, snd (get_contents (file_path self) w)).
Proof.
  intros Hremote Hget Hd. unfold read_data, read_remote. rewrite Hremote.
  unfold try_except, bind.
  destruct (get_contents (file_path self) w) as [r w1]. simpl in *. subst r.
  simpl. rewrite Hd, py_or_falsy by exact Hd. reflexivity.
Qed.

(** *** Totality: the public methods return, they never raise *)

Lemma write_loop_returns (self : GithubDB) (v : value) (msg : string)
  (max_retries : Z) (todo : nat) :
  forall (attempt_no : Z) (w : world),
  exists b w', write_loop self v msg max_retries attempt_no todo w = (Ret b, w').
Proof.
  induction todo as [|todo IH]; intros attempt_no w; simpl.
  - eauto.
  - unfold try_except at 1. unfold bind at 1.
    destruct (attempt self v msg w) as [[[]|e] w1]; [eauto|].
    destruct e; eauto.
    destruct ((status =? 409) && (attempt_no <? max_retries - 1)); eauto.
Qed.

Lemma write_local_returns (self : GithubDB) (v : value) (w : world) :
  exists b w', write_local self v w = (Ret b, w').
Proof.
  unfold write_local, try_except, bind.
  destruct (open_write (local_file_path self) w) as [[[]|e] w1]; [|eauto].
  destruct (json_dump v (local_file_path self) w1) as [[[]|e] w2]; eauto.
Qed.

Lemma write_data_returns (self : GithubDB) (v : value) (msg : string)
  (max_retries : Z) (w : world) :
  exists b w', write_data self v msg max_retries w = (Ret b, w').
Proof.
  unfold write_data. destruct (use_local self).
  - apply write_local_returns.
  - apply write_loop_returns.
Qed.

Lemma read_data_returns (self : GithubDB) (d : value) (w : world) :
  exists v w', read_data self d w = (Ret v, w').
Proof.
  unfold read_data. destruct (use_local self) eqn:Hmode.
  - unfold read_local, try_except, bind, path_exists.
    destruct (bool_decide _).
    + destruct (open_read (local_file_path self) w) as [[text|e] w1]; [|eauto].
      unfold json_loads. destruct (loads text); eauto.
    + destruct (truthy d); [|eauto].
      destruct (write_data_returns self d "Initialize local data.json" 3 w)
        as (b & w1 & ->). eauto.
  - unfold read_remote, try_except, bind.
    destruct (get_contents (file_path self) w) as [[c|e] w1].
    + unfold json_loads. destruct (loads (decoded_content c)); eauto.
    + destruct e; eauto.
      destruct (status =? 404); [|eauto].
      destruct (truthy d); [|eauto].
      destruct (write_data_returns self d "Initialize data.json" 3 w1)
        as (b & w2 & ->). destruct b; eauto.
Qed.

(** *** A blob that is not there *)

Lemma read_not_found (self : GithubDB) (d : value) (w : world) :
  not_found self w ->
  exists w', read_data self d w = (Ret (py_or d empty_dict), w').
Proof.
  unfold not_found, read_data. destruct (use_local self) eqn:Hmode; intros Hnf.
  - unfold read_local, try_except, bind, path_exists. rewrite Hnf.
    rewrite bool_decide_eq_false_2 by (intros [? ?]; discriminate).
    unfold py_or. destruct (truthy d); [|eauto].
    destruct (write_data_returns self d "Initialize local data.json" 3 w)
      as (b & w1 & ->). eauto.
  - unfold read_remote, try_except, bind.
    destruct (get_contents (file_path self) w) as [r w1]. simpl in Hnf. subst r.
    simpl. unfold py_or. destruct (truthy d) eqn:Hd.
    + destruct (write_data_returns self d "Initialize data.json" 3 w1)
        as (b & w2 & ->).
      destruct b; eexists; reflexivity.
    + eexists; reflexivity.
Qed.

(** C3 (amended): when the medium reports that the backing blob does not
    exist and no default document is given, [read_data] returns the empty
    document on both backends; whatever the default, the result on that
    path is never [None]. *)
Theorem read_missing_blob (self : GithubDB) (w : world) :
  not_found self w ->
  (exists w', read_data self VNone w = (Ret empty_dict, w'))
  /\ (forall d, fst (read_data self d w) <> Ret VNone).
Proof.
  intros Hnf. split.
  - apply (read_not_found self VNone w Hnf).
  - intros d. destruct (read_not_found self d w Hnf) as (w' & ->). simpl.
    intros [= H]. now apply py_or_not_none in H.
Qed.

Lemma get_contents_calls (path : string) (w : world) :
  calls (snd (get_contents path w))
  = calls w ++ [GetContents path (fst (get_contents path w))].
Proof.
  unfold get_contents, next_event.
  destruct (script w) as [|[ |e|p c|e n] rest]; reflexivity.
Qed.

(** C10: a falsy default document passed to [read_data] when the medium
    reports the blob absent is treated as no default, on both backends:
    the result is the empty document, the world is left as a call without
    default leaves it, and no writing operation was performed. *)
Theorem read_falsy_default (self : GithubDB) (d : value) (w : world) :
  truthy d = false ->
  not_found self w ->
  exists w',
    read_data self d w = (Ret empty_dict, w')
    /\ read_data self VNone w = (Ret empty_dict, w')
    /\ Forall (fun c => is_write c = false) (new_calls w w').
Proof.
  intros Hd Hnf. unfold not_found in Hnf.
  destruct (use_local self) eqn:Hmode.
  - exists w. rewrite !read_local_missing by auto.
    repeat split. unfold new_calls. rewrite drop_all. constructor.
  - exists (snd (get_contents (file_path self) w)).
    rewrite !read_remote_missing by auto. repeat split.
    rewrite (new_calls_app _ _ _ (get_contents_calls _ _)).
    repeat constructor.
Qed.

(** C9 (amended): in local mode [read_data] returns (it never raises); a
    missing file gives the default when it is truthy and the empty document
    otherwise, a read or parse error gives the same, and a file that reads
    and parses gives the parsed value.  The result is [None] only when the
    file's text parses to [None] (the JSON value null). *)
Theorem read_local_cases (self : GithubDB) (d : value) (w : world) :
  use_local self = true ->
  exists v w',
    read_data self d w = (Ret v, w')
    /\ (disk w !! local_file_path self = None -> v = py_or d empty_dict)
    /\ (forall e w1,
          is_Some (disk w !! local_file_path self) ->
          open_read (local_file_path self) w = (Raise e, w1) ->
          v = py_or d empty_dict)
    /\ (forall text w1,
          is_Some (disk w !! local_file_path self) ->
          open_read (local_file_path self) w = (Ret text, w1) ->
          v = match loads text with
              | Some parsed => parsed
              | None => py_or d empty_dict
              end)
    /\ (v = VNone -> exists text, loads text = Some VNone).
Proof.
  intros Hlocal.
  destruct (disk w !! local_file_path self) as [content|] eqn:Hfile.
  - unfold read_data, read_local. rewrite Hlocal.
    unfold try_except, bind, path_exists. rewrite Hfile.
    rewrite bool_decide_eq_true_2 by eauto.
    destruct (open_read (local_file_path self) w) as [[text|e] w1] eqn:Hopen.
    + unfold json_loads. destruct (loads text) as [parsed|] eqn:Hparse.
      * exists parsed, w1. split; [reflexivity|].
        split; [discriminate|]. split; [intros ? ? _ [=]|].
        split; [intros ? ? _ [= <- <-]; now rewrite Hparse|].
        intros ->. eauto.
      * exists (py_or d empty_dict), w1. split; [reflexivity|].
        split; [discriminate|]. split; [reflexivity|].
        split; [intros ? ? _ [= <- <-]; now rewrite Hparse|].
        intros H. now apply py_or_not_none in H.
    + exists (py_or d empty_dict), w1. split; [reflexivity|].
      split; [discriminate|]. split; [reflexivity|].
      split; [intros ? ? _ [=]|].
      intros H. now apply py_or_not_none in H.
  - assert (not_found self w) as Hnf by (unfold not_found; now rewrite Hlocal).
    destruct (read_not_found self d w Hnf) as (w' & Hread).
    exists (py_or d empty_dict), w'. split; [exact Hread|].
    split; [reflexivity|].
    split; [intros ? ? [? [=]]|]. split; [intros ? ? [? [=]]|].
    intros H. now apply py_or_not_none in H.
Qed.

(** C4 (amended): when reading the existing blob fails, in transport or in
    parsing, [read_data] returns [None] in GitHub mode; in local mode it
    returns the default document when that is truthy and the empty
    document otherwise. *)
Theorem read_failure_result (self : GithubDB) (d : value) (w w1 : world) :
  fetch_fails self w w1 ->
  read_data self d w
  = (Ret (if use_local self then py_or d empty_dict else VNone), w1).
Proof.
  unfold fetch_fails, read_data. destruct (use_local self).
  - intros [Hfile [[e He]|[text [Ht Hparse]]]];
      unfold read_local, try_except, bind, path_exists;
      rewrite bool_decide_eq_true_2 by exact Hfile.
    + now rewrite He.
    + rewrite Ht. unfold json_loads. now rewrite Hparse.
  - intros [[e [He Hne]]|[c [Hc Hparse]]];
      unfold read_remote, try_except, bind.
    + rewrite He. destruct e; try reflexivity.
      destruct (status =? 404) eqn:Hs; [|reflexivity].
      apply Z.eqb_eq in Hs. now subst.
    + rewrite Hc. unfold json_loads. now rewrite Hparse.
Qed.

(** *** The API calls, one by one *)

Ltac frame :=
  repeat match goal with
    | |- _ /\ _ => split
    | |- forall _, _ => intro
    | H : false = true |- _ => discriminate H
    | H : race_free (_ :: _) = true |- _ => simpl in H
    | H : Ret _ = Raise _ |- _ => discriminate H
    | H : Raise _ = Ret _ |- _ => discriminate H
    | H : Ret _ = Ret _ |- _ => injection H as H; try subst
    | |- exists s, <[?p := Blob ?t _]> _ !! ?p = Some (Blob ?t s) =>
        eexists; apply lookup_insert_eq
    | _ => progress (simpl in *)
    end;
  auto; try discriminate.

Lemma get_contents_frame (path : string) (w : world) r w' :
  get_contents path w = (r, w') ->
  calls w' = calls w ++ [GetContents path r]
  /\ disk w' = disk w
  /\ (race_free (script w) = true ->
      repo w' = repo w /\ race_free (script w') = true)
  /\ (forall c, r = Ret c -> cf_path c = path).
Proof.
  unfold get_contents, next_event. intros H.
  destruct (script w) as [|[ |e|p c|e n] rest] eqn:Hs; simpl in H;
    injection H as <- <-; simpl;
    (split; [reflexivity|]); (split; [reflexivity|]); split.
  all: try (intros Hrf; rewrite ?Hs; simpl in Hrf; auto; try discriminate;
            now apply andb_prop in Hrf).
  all: intros c0 Hc; try discriminate.
  all: match type of Hc with
       | match ?o with _ => _ end = _ => destruct o; [|discriminate]
       end; now injection Hc as <-.
Qed.

Lemma update_file_frame (path msg text : string) (sha : N) (w : world) r w' :
  update_file path msg text sha w = (r, w') ->
  calls w' = calls w ++ [UpdateFile path msg text sha r]
  /\ disk w' = disk w
  /\ (r = Ret tt -> exists s, repo w' !! path = Some (Blob text s))
  /\ (race_free (script w) = true ->
      race_free (script w') = true
      /\ forall e, r = Raise e -> repo w' = repo w).
Proof.
  unfold update_file, next_event. intros H.
  destruct (script w) as [|[ |e|p c|e n] rest] eqn:Hs; simpl in H.
  2, 3, 4, 5: try (destruct (_ !! path) as [b|];
                [destruct (N.eqb (blob_sha b) sha)|]);
    injection H as <- <-; frame.
  destruct (_ !! path) as [b|]; [destruct (N.eqb (blob_sha b) sha)|];
    injection H as <- <-; frame; rewrite ?Hs; auto.
Qed.

Lemma create_file_frame (path msg text : string) (w : world) r w' :
  create_file path msg text w = (r, w') ->
  calls w' = calls w ++ [CreateFile path msg text r]
  /\ disk w' = disk w
  /\ (r = Ret tt -> exists s, repo w' !! path = Some (Blob text s))
  /\ (race_free (script w) = true ->
      race_free (script w') = true
      /\ forall e, r = Raise e -> repo w' = repo w).
Proof.
  unfold create_file, next_event. intros H.
  destruct (script w) as [|[ |e|p c|e n] rest] eqn:Hs; simpl in H.
  2, 3, 4, 5: try (destruct (_ !! path) as [b|]);
    injection H as <- <-; frame.
  destruct (_ !! path) as [b|]; injection H as <- <-; frame; rewrite ?Hs; auto.
Qed.

(** *** One attempt *)

Lemma json_dumps_cases (v : value) (w : world) :
  (exists text, encode v = (text, true) /\ json_dumps v w = (Ret text, w))
  \/ json_dumps v w = (Raise TypeError, w).
Proof.
  unfold json_dumps. destruct (encode v) as [text [|]]; eauto.
Qed.

(** Creating after "not found": the second half of an attempt. *)
Lemma create_branch_frame (self : GithubDB) (v : value) (msg : string)
  (w : world) r w' :
  bind (json_dumps v) (fun text => create_file (file_path self) msg text) w
  = (r, w') ->
  (exists rest, calls w' = calls w ++ rest
                /\ forall g, Forall (presents_token g) rest)
  /\ disk w' = disk w
  /\ (r = Ret tt ->
      exists text s, encode v = (text, true)
                     /\ repo w' !! file_path self = Some (Blob text s))
  /\ (race_free (script w) = true ->
      race_free (script w') = true
      /\ forall e, r = Raise e -> repo w' = repo w).
Proof.
  unfold bind. intros H.
  destruct (json_dumps_cases v w) as [(text & Henc & Hd)|Hd]; rewrite Hd in H.
  - apply create_file_frame in H as (Hc & Hdisk & Hok & Hrf).
    split; [|split; [exact Hdisk|split]].
    + eexists. split; [exact Hc|]. intros g. repeat constructor.
    + intros Hr. destruct (Hok Hr) as [s Hs]. eauto.
    + exact Hrf.
  - injection H as <- <-. split; [|split; [reflexivity|split]].
    + exists []. split; [now rewrite app_nil_r|]. constructor.
    + discriminate.
    + auto.
Qed.

Lemma attempt_frame (self : GithubDB) (v : value) (msg : string)
  (w : world) r w' :
  attempt self v msg w = (r, w') ->
  fetches_first (file_path self) (new_calls w w')
  /\ disk w' = disk w
  /\ (r = Ret tt ->
      exists text s, encode v = (text, true)
                     /\ repo w' !! file_path self = Some (Blob text s))
  /\ (race_free (script w) = true ->
      race_free (script w') = true
      /\ forall e, r = Raise e -> repo w' = repo w).
Proof.
  unfold attempt, try_except. unfold bind at 1. intros H.
  destruct (get_contents (file_path self) w) as [g w1] eqn:Hget.
  apply get_contents_frame in Hget as (Hc1 & Hd1 & Hrf1 & Hpath).
  destruct g as [c|e].
  - (* the blob was fetched *)
    unfold bind in H.
    destruct (json_dumps_cases v w1) as [(text & Henc & Hd)|Hd]; rewrite Hd in H.
    + destruct (update_file (cf_path c) msg text (cf_sha c) w1) as [u w2] eqn:Hup.
      apply update_file_frame in Hup as (Hc2 & Hd2 & Hok2 & Hrf2).
      rewrite (Hpath c eq_refl) in *.
      destruct u as [[]|e].
      * injection H as <- <-. split; [|split; [congruence|split]].
        -- exists (Ret c), [UpdateFile (file_path self) msg text (cf_sha c) (Ret tt)].
           split; [apply new_calls_app; rewrite Hc2, Hc1, <- app_assoc; reflexivity|].
           repeat constructor. simpl. eauto.
        -- intros _. destruct (Hok2 eq_refl) as [s Hs]. eauto.
        -- intros Hrf. destruct (Hrf1 Hrf) as [_ Hrf']. split; [now apply Hrf2|].
           discriminate.
      * assert (Hcalls : calls w2 = calls w ++ GetContents (file_path self) (Ret c)
                  :: [UpdateFile (file_path self) msg text (cf_sha c) (Raise e)])
          by (rewrite Hc2, Hc1, <- app_assoc; reflexivity).
        assert (Hrepo : race_free (script w) = true ->
                        race_free (script w2) = true /\ repo w2 = repo w).
        { intros Hrf. destruct (Hrf1 Hrf) as [Hr1 Hrf'].
          destruct (Hrf2 Hrf') as [Hrf'' Hr2]. split; [exact Hrf''|].
          rewrite (Hr2 e eq_refl). exact Hr1. }
        assert (Hraise : (r, w') = (Raise e, w2) ->
          fetches_first (file_path self) (new_calls w w')
          /\ disk w' = disk w
          /\ (r = Ret tt ->
              exists text s, encode v = (text, true)
                 /\ repo w' !! file_path self = Some (Blob text s))
          /\ (race_free (script w) = true ->
              race_free (script w') = true
              /\ forall e, r = Raise e -> repo w' = repo w)).
        { intros [= -> ->]. split; [|split; [congruence|split]].
          - eexists _, _. split; [apply new_calls_app; exact Hcalls|].
            repeat constructor. simpl. eauto.
          - discriminate.
          - intros Hrf. destruct (Hrepo Hrf). auto. }
        destruct e as [status| | | | |]; try (apply Hraise; now symmetry).
        destruct (status =? 404) eqn:Hs; [|apply Hraise; now symmetry].
        apply create_branch_frame in H
          as ((rest & Hc3 & Hshape) & Hd3 & Hok3 & Hrf3).
        split; [|split; [congruence|split]].
        -- eexists _, _. split.
           ++ apply new_calls_app. rewrite Hc3, Hcalls, <- app_assoc. reflexivity.
           ++ constructor; [simpl; eauto|apply Hshape].
        -- exact Hok3.
        -- intros Hrf. destruct (Hrepo Hrf) as [Hrf' Hr].
           destruct (Hrf3 Hrf') as [Hrf'' Hr3]. split; [exact Hrf''|].
           intros e He. rewrite (Hr3 e He). exact Hr.
    + injection H as <- <-. split; [|split; [exact Hd1|split]].
      * exists (Ret c), []. split; [apply new_calls_app; exact Hc1|constructor].
      * discriminate.
      * intros Hrf. destruct (Hrf1 Hrf). auto.
  - (* the fetch raised *)
    assert (Hraise : (r, w') = (Raise e, w1) ->
      fetches_first (file_path self) (new_calls w w')
      /\ disk w' = disk w
      /\ (r = Ret tt ->
          exists text s, encode v = (text, true)
             /\ repo w' !! file_path self = Some (Blob text s))
      /\ (race_free (script w) = true ->
          race_free (script w') = true
          /\ forall e, r = Raise e -> repo w' = repo w)).
    { intros [= -> ->]. split; [|split; [exact Hd1|split]].
      - exists (Raise e), []. split; [apply new_calls_app; exact Hc1|constructor].
      - discriminate.
      - intros Hrf. destruct (Hrf1 Hrf). auto. }
    destruct e as [status| | | | |]; try (apply Hraise; now symmetry).
    destruct (status =? 404) eqn:Hs; [|apply Hraise; now symmetry].
    apply create_branch_frame in H
      as ((rest & Hc3 & Hshape) & Hd3 & Hok3 & Hrf3).
    split; [|split; [congruence|split]].
    + eexists _, _. split.
      * apply new_calls_app. rewrite Hc3, Hc1, <- app_assoc. reflexivity.
      * apply Hshape.
    + exact Hok3.
    + intros Hrf. destruct (Hrf1 Hrf) as [Hr Hrf'].
      destruct (Hrf3 Hrf') as [Hrf'' Hr3]. split; [exact Hrf''|].
      intros e He. rewrite (Hr3 e He). exact Hr.
Qed.

(** *** The retry loop *)



(** *** What a write leaves behind *)

Lemma write_loop_outcome (self : GithubDB) (v : value) (msg : string)
  (max_retries : Z) (todo : nat) :
  forall (attempt_no : Z) (w : world) (b : bool) (w' : world),
  write_loop self v msg max_retries attempt_no todo w = (Ret b, w') ->
  (b = true ->
   exists text s, encode v = (text, true)
                  /\ repo w' !! file_path self = Some (Blob text s))
  /\ (b = false -> race_free (script w) = true -> repo w' = repo w).
Proof.
  induction todo as [|todo IH]; intros attempt_no w b w' H; simpl in H.
  - injection H as <- <-. split; [discriminate|reflexivity].
  - unfold try_except in H. unfold bind in H.
    destruct (attempt self v msg w) as [[[]|e] w1] eqn:Hatt;
      apply attempt_frame in Hatt as (_ & _ & Hok & Hrf).
    + injection H as <- <-. split; [auto|discriminate].
    + assert (Hstop : (Ret b, w') = (Ret false, w1) ->
        (b = true ->
         exists text s, encode v = (text, true)
                        /\ repo w' !! file_path self = Some (Blob text s))
        /\ (b = false -> race_free (script w) = true -> repo w' = repo w)).
      { intros [= -> ->]. split; [discriminate|].
        intros _ Hfree. destruct (Hrf Hfree) as [_ Hsame]. eauto. }
      destruct e as [status| | | | |]; try (apply Hstop; now symmetry).
      destruct ((status =? 409) && (attempt_no <? max_retries - 1));
        [|apply Hstop; now symmetry].
      apply IH in H as [Htrue Hfalse]. split; [exact Htrue|].
      intros Hb Hfree. destruct (Hrf Hfree) as [Hfree1 Hsame].
      rewrite (Hfalse Hb Hfree1). eauto.
Qed.

Lemma open_write_frame (path : string) (w : world) r w' :
  open_write path w = (r, w') ->
  match r with
  | Ret _ => disk w' !! path = Some EmptyString
  | Raise _ => disk w' = disk w
  end.
Proof.
  unfold open_write, next_event. intros H.
  destruct (script w) as [|[ |e|p c|e n] rest]; simpl in H;
    injection H as <- <-; simpl; try reflexivity; apply lookup_insert_eq.
Qed.

Lemma append_empty (a : string) : a +:+ EmptyString = a.
Proof.
  induction a as [|x a IH]; [reflexivity|].
  exact (f_equal (String x) IH).
Qed.

(** The first [n] characters of a text are a beginning of it. *)
Lemma substring_prefix (n : nat) (text : string) :
  exists rest, text = String.substring 0 n text +:+ rest.
Proof.
  revert text. induction n as [|n IH]; intros [|c text].
  - now exists EmptyString.
  - now exists (String c text).
  - now exists EmptyString.
  - destruct (IH text) as [rest Hrest]. exists rest.
    exact (f_equal (String c) Hrest).
Qed.

Lemma json_dump_frame (v : value) (path : string) (w : world) r w' :
  json_dump v path w = (r, w') ->
  (r = Ret tt -> exists text, encode v = (text, true)
                              /\ disk w' !! path = Some text)
  /\ (forall e, r = Raise e ->
      disk w !! path = Some EmptyString ->
      exists partial rest,
        disk w' !! path = Some partial
        /\ fst (encode v) = partial +:+ rest).
Proof.
  unfold json_dump, next_event. intros H.
  destruct (script w) as [|[ |e0|p c|e0 n] rest] eqn:Hs; simpl in H.
  3: { injection H as <- <-; simpl. split; [discriminate|].
       intros _ _ Hfile. exists EmptyString, (fst (encode v)). eauto. }
  4: { injection H as <- <-; simpl. split; [discriminate|].
       intros _ _ _. destruct (substring_prefix n (fst (encode v))) as [tl Htl].
       exists (String.substring 0 n (fst (encode v))), tl.
       split; [apply lookup_insert_eq|exact Htl]. }
  all: destruct (encode v) as [text [|]] eqn:Henc;
    injection H as <- <-; simpl; split; try discriminate.
  all: try (intros _; exists text; split; [reflexivity|apply lookup_insert_eq]).
  all: intros e _ _; exists text, EmptyString;
    (split; [apply lookup_insert_eq|now rewrite append_empty]).
Qed.

Lemma write_local_outcome (self : GithubDB) (v : value) (w : world) b w' :
  write_local self v w = (Ret b, w') ->
  (b = true -> exists text, encode v = (text, true)
                            /\ disk w' !! local_file_path self = Some text)
  /\ (b = false ->
      match fst (open_write (local_file_path self) w) with
      | Raise _ => disk w' = disk w
      | Ret _ =>
          exists partial rest,
            disk w' !! local_file_path self = Some partial
            /\ fst (encode v) = partial +:+ rest
      end).
Proof.
  unfold write_local, try_except, bind. intros H.
  destruct (open_write (local_file_path self) w) as [[[]|e] w1] eqn:Hopen;
    apply open_write_frame in Hopen; cbn [fst].
  - destruct (json_dump v (local_file_path self) w1) as [[[]|e] w2] eqn:Hdump;
      apply json_dump_frame in Hdump as [Hok Hfail]; injection H as <- <-.
    + split; [intros _; apply Hok; reflexivity|intros [=]].
    + split; [intros [=]|]. intros _. eauto.
  - injection H as <- <-. split; [intros [=]|]. auto.
Qed.


(** C2: after a [write_data] of [D] that returned [True], a [read_data]
    served without fault and without a concurrent writer returns [D], on
    both backends, for every document [D] that the decoder reads back from
    its encoding. *)
Theorem write_then_read (self : GithubDB) (D : value) (msg : string)
  (max_retries : Z) (d : value) (w w1 : world) :
  loads (fst (encode D)) = Some D ->
  write_data self D msg max_retries w = (Ret true, w1) ->
  served_quietly w1 = true ->
  exists w2, read_data self d w1 = (Ret D, w2).
Proof.
  intros Hcodec Hwrite Hquiet.
  unfold write_data in Hwrite. unfold read_data.
  destruct (use_local self).
  - apply write_local_outcome in Hwrite as [Hok _].
    destruct (Hok eq_refl) as (text & Henc & Hfile).
    rewrite Henc in Hcodec. simpl in Hcodec.
    unfold read_local, try_except, bind, path_exists. rewrite Hfile.
    rewrite bool_decide_eq_true_2 by eauto.
    unfold open_read, next_event. unfold served_quietly in Hquiet.
    destruct (script w1) as [|[ |e|p c|e n] rest]; try discriminate; simpl;
      rewrite Hfile; unfold json_loads; rewrite Hcodec; eexists; reflexivity.
  - unfold write_remote in Hwrite. apply write_loop_outcome in Hwrite as [Hok _].
    destruct (Hok eq_refl) as (text & s & Henc & Hblob).
    rewrite Henc in Hcodec. simpl in Hcodec.
    unfold read_remote, try_except, bind, get_contents, next_event.
    unfold served_quietly in Hquiet.
    destruct (script w1) as [|[ |e|p c|e n] rest]; try discriminate; simpl;
      rewrite Hblob; simpl; unfold json_loads; rewrite Hcodec;
      eexists; reflexivity.
Qed.

(** ** Further properties of the store *)

(** *** A quiet environment *)

Lemma next_event_calm (w : world) :
  calm (script w) = true ->
  exists w1,
    next_event w = (Quiet, w1)
    /\ disk w1 = disk w /\ repo w1 = repo w /\ next_sha w1 = next_sha w
    /\ calls w1 = calls w /\ calm (script w1) = true.
Proof.
  unfold next_event. destruct (script w) as [|ev rest] eqn:Hs; simpl.
  - intros _. exists w. rewrite Hs. auto 10.
  - destruct ev; try discriminate. intros Hrest.
    eexists. split; [reflexivity|]. simpl. auto 10.
Qed.

Lemma get_contents_calm (path : string) (w : world) :
  calm (script w) = true ->
  exists w1,
    get_contents path w
    = (match repo w !! path with
       | Some b => Ret {| cf_path := path; decoded_content := blob_text b;
                          cf_sha := blob_sha b |}
       | None => Raise (GithubException 404)
       end, w1)
    /\ disk w1 = disk w /\ repo w1 = repo w /\ next_sha w1 = next_sha w
    /\ calm (script w1) = true
    /\ exists c, calls w1 = calls w ++ [c] /\ is_write c = false
                 /\ is_remote c = true.
Proof.
  intros Hcalm.
  destruct (next_event_calm w Hcalm) as (w0 & Hnext & Hd & Hr & Hn & Hc & Hcalm0).
  unfold get_contents. rewrite Hnext. simpl. rewrite Hr.
  eexists. split; [reflexivity|]. simpl. rewrite Hc.
  repeat split; eauto.
Qed.

Lemma update_file_calm (path msg text : string) (sha : N) (w : world) (b : blob) :
  calm (script w) = true ->
  repo w !! path = Some b ->
  blob_sha b = sha ->
  exists w1,
    update_file path msg text sha w = (Ret tt, w1)
    /\ disk w1 = disk w
    /\ repo w1 = <[path := Blob text (next_sha w)]> (repo w)
    /\ calm (script w1) = true
    /\ exists c, calls w1 = calls w ++ [c] /\ is_write c = true
                 /\ is_remote c = true.
Proof.
  intros Hcalm Hblob Hsha.
  destruct (next_event_calm w Hcalm) as (w0 & Hnext & Hd & Hr & Hn & Hc & Hcalm0).
  unfold update_file. rewrite Hnext. simpl. rewrite Hr, Hblob, Hsha, N.eqb_refl.
  eexists. split; [reflexivity|]. simpl. rewrite Hc, Hr, Hn.
  repeat split; eauto.
Qed.

Lemma create_file_calm (path msg text : string) (w : world) :
  calm (script w) = true ->
  repo w !! path = None ->
  exists w1,
    create_file path msg text w = (Ret tt, w1)
    /\ disk w1 = disk w
    /\ repo w1 = <[path := Blob text (next_sha w)]> (repo w)
    /\ calm (script w1) = true
    /\ exists c, calls w1 = calls w ++ [c] /\ is_write c = true
                 /\ is_remote c = true.
Proof.
  intros Hcalm Hblob.
  destruct (next_event_calm w Hcalm) as (w0 & Hnext & Hd & Hr & Hn & Hc & Hcalm0).
  unfold create_file. rewrite Hnext. simpl. rewrite Hr, Hblob.
  eexists. split; [reflexivity|]. simpl. rewrite Hc, Hr, Hn.
  repeat split; eauto.
Qed.

Lemma attempt_calm (self : GithubDB) (v : value) (msg text : string) (w : world) :
  calm (script w) = true ->
  encode v = (text, true) ->
  exists w1 c1 c2,
    attempt self v msg w = (Ret tt, w1)
    /\ disk w1 = disk w
    /\ repo w1 = <[file_path self := Blob text (next_sha w)]> (repo w)
    /\ calm (script w1) = true
    /\ calls w1 = calls w ++ [c1; c2]
    /\ is_write c1 = false /\ is_write c2 = true
    /\ is_remote c1 = true /\ is_remote c2 = true.
Proof.
  intros Hcalm Henc.
  destruct (get_contents_calm (file_path self) w Hcalm)
    as (w1 & Hget & Hd1 & Hr1 & Hn1 & Hcalm1 & c1 & Hc1 & Hw1 & Hk1).
  unfold attempt, try_except. unfold bind at 1. rewrite Hget.
  destruct (repo w !! file_path self) as [b|] eqn:Hblob.
  - unfold bind, json_dumps. rewrite Henc. simpl.
    rewrite <- Hr1 in Hblob.
    destruct (update_file_calm (file_path self) msg text (blob_sha b) w1 b
                Hcalm1 Hblob eq_refl)
      as (w2 & Hup & Hd2 & Hr2 & Hcalm2 & c2 & Hc2 & Hw2 & Hk2).
    rewrite Hup. exists w2, c1, c2. split; [reflexivity|].
    rewrite Hd2, Hr2, Hr1, Hn1, Hc2, Hc1, <- app_assoc. auto 10.
  - simpl. unfold bind, json_dumps. rewrite Henc. simpl.
    rewrite <- Hr1 in Hblob.
    destruct (create_file_calm (file_path self) msg text w1 Hcalm1 Hblob)
      as (w2 & Hcr & Hd2 & Hr2 & Hcalm2 & c2 & Hc2 & Hw2 & Hk2).
    rewrite Hcr. exists w2, c1, c2. split; [reflexivity|].
    rewrite Hd2, Hr2, Hr1, Hn1, Hc2, Hc1, <- app_assoc. auto 10.
Qed.

Lemma open_write_calm (path : string) (w : world) :
  calm (script w) = true ->
  exists w1 c,
    open_write path w = (Ret tt, w1)
    /\ disk w1 = <[path := EmptyString]> (disk w) /\ repo w1 = repo w
    /\ calm (script w1) = true
    /\ calls w1 = calls w ++ [c] /\ is_remote c = false /\ is_write c = true.
Proof.
  intros Hcalm.
  destruct (next_event_calm w Hcalm) as (w0 & Hnext & Hd & Hr & Hn & Hc & Hcalm0).
  unfold open_write. rewrite Hnext. simpl.
  eexists _, _. split; [reflexivity|]. simpl. rewrite Hc, Hr, Hd. auto 10.
Qed.

Lemma json_dump_calm (v : value) (path text : string) (w : world) :
  calm (script w) = true ->
  encode v = (text, true) ->
  exists w1 c,
    json_dump v path w = (Ret tt, w1)
    /\ disk w1 = <[path := text]> (disk w) /\ repo w1 = repo w
    /\ calm (script w1) = true
    /\ calls w1 = calls w ++ [c] /\ is_remote c = false /\ is_write c = true.
Proof.
  intros Hcalm Henc.
  destruct (next_event_calm w Hcalm) as (w0 & Hnext & Hd & Hr & Hn & Hc & Hcalm0).
  unfold json_dump. rewrite Hnext. simpl. rewrite Henc.
  eexists _, _. split; [reflexivity|]. simpl. rewrite Hc, Hr, Hd. auto 10.
Qed.

Lemma write_calm (self : GithubDB) (v : value) (msg text : string)
  (max_retries : Z) (w : world) :
  calm (script w) = true ->
  encode v = (text, true) ->
  0 < max_retries ->
  exists w' c1 c2,
    write_data self v msg max_retries w = (Ret true, w')
    /\ persisted self w' = Some text
    /\ calm (script w') = true
    /\ calls w' = calls w ++ [c1; c2]
    /\ is_write c1 = use_local self /\ is_write c2 = true.
Proof.
  intros Hcalm Henc Hpos. unfold write_data, persisted.
  destruct (use_local self).
  - destruct (open_write_calm (local_file_path self) w Hcalm)
      as (w1 & c1 & Hopen & Hd1 & _ & Hcalm1 & Hc1 & _ & Hk1).
    destruct (json_dump_calm v (local_file_path self) text w1 Hcalm1 Henc)
      as (w2 & c2 & Hdump & Hd2 & _ & Hcalm2 & Hc2 & _ & Hk2).
    exists w2, c1, c2. unfold write_local, try_except, bind.
    rewrite Hopen, Hdump.
    split; [reflexivity|]. rewrite Hd2, lookup_insert_eq, Hc2, Hc1, <- app_assoc.
    repeat split; auto.
  - destruct (attempt_calm self v msg text w Hcalm Henc)
      as (w1 & c1 & c2 & Hatt & _ & Hr & Hcalm1 & Hc & Hk1 & Hk2 & _).
    exists w1, c1, c2. unfold write_remote.
    destruct (Z.to_nat max_retries) as [|todo] eqn:Htodo; [lia|].
    simpl. unfold try_except, bind. rewrite Hatt.
    split; [reflexivity|]. rewrite Hr, lookup_insert_eq.
    repeat split; auto.
Qed.

Lemma open_read_calm (path : string) (w : world) :
  calm (script w) = true ->
  exists w1 c,
    open_read path w
    = (match disk w !! path with
       | Some text => Ret text
       | None => Raise OSError
       end, w1)
    /\ disk w1 = disk w /\ repo w1 = repo w
    /\ calm (script w1) = true
    /\ calls w1 = calls w ++ [c] /\ is_write c = false.
Proof.
  intros Hcalm.
  destruct (next_event_calm w Hcalm) as (w0 & Hnext & Hd & Hr & Hn & Hc & Hcalm0).
  unfold open_read. rewrite Hnext. simpl. rewrite Hd.
  eexists _, _. split; [reflexivity|]. simpl. rewrite Hc. auto 10.
Qed.

Lemma read_calm (self : GithubDB) (d v : value) (text : string) (w : world) :
  calm (script w) = true ->
  persisted self w = Some text ->
  loads text = Some v ->
  exists w' c,
    read_data self d w = (Ret v, w')
    /\ persisted self w' = Some text
    /\ calm (script w') = true
    /\ calls w' = calls w ++ [c] /\ is_write c = false.
Proof.
  unfold persisted, read_data. intros Hcalm Hp Hparse.
  destruct (use_local self).
  - destruct (open_read_calm (local_file_path self) w Hcalm)
      as (w1 & c & Hopen & Hd & _ & Hcalm1 & Hc & Hw).
    rewrite Hp in Hopen. exists w1, c.
    unfold read_local, try_except, bind, path_exists. rewrite Hp.
    rewrite bool_decide_eq_true_2 by eauto.
    rewrite Hopen. unfold json_loads. rewrite Hparse.
    split; [reflexivity|]. rewrite Hd.
    repeat split; auto.
  - destruct (get_contents_calm (file_path self) w Hcalm)
      as (w1 & Hget & _ & Hr & _ & Hcalm1 & c & Hc & Hw & _).
    destruct (repo w !! file_path self) as [b|] eqn:Hb; [|discriminate].
    injection Hp as Hp. exists w1, c.
    unfold read_remote, try_except, bind. rewrite Hget. simpl.
    unfold json_loads. rewrite Hp, Hparse.
    split; [reflexivity|]. rewrite Hr, Hb. simpl. rewrite Hp.
    repeat split; auto.
Qed.

Lemma new_calls_trans (w w1 w2 : world) (l1 l2 : list call) :
  calls w1 = calls w ++ l1 -> calls w2 = calls w1 ++ l2 ->
  new_calls w w2 = l1 ++ l2.
Proof.
  intros H1 H2. apply new_calls_app. now rewrite H2, H1, app_assoc.
Qed.

(** X1: in a quiet environment a write of an encodable document with at
    least one attempt allowed returns [True] after two operations, and the
    read that follows returns the document, on both backends. *)
Theorem quiet_write_then_read (self : GithubDB) (D d : value) (msg text : string)
  (max_retries : Z) (w : world) :
  calm (script w) = true ->
  encode D = (text, true) ->
  loads text = Some D ->
  0 < max_retries ->
  exists w1 w2,
    write_data self D msg max_retries w = (Ret true, w1)
    /\ read_data self d w1 = (Ret D, w2)
    /\ persisted self w2 = Some text
    /\ map is_write (new_calls w w2)
       = [use_local self; true; false].
Proof.
  intros Hcalm Henc Hparse Hpos.
  destruct (write_calm self D msg text max_retries w Hcalm Henc Hpos)
    as (w1 & c1 & c2 & Hwrite & Hp1 & Hcalm1 & Hc1 & Hk1 & Hk2).
  destruct (read_calm self d D text w1 Hcalm1 Hp1 Hparse)
    as (w2 & c3 & Hread & Hp2 & _ & Hc2 & Hw3).
  exists w1, w2. repeat split; auto.
  rewrite (new_calls_trans _ _ _ _ _ Hc1 Hc2). simpl.
  now rewrite Hk1, Hk2, Hw3.
Qed.

(** X2: two writes in a row, in a quiet environment, both return [True]
    and the store holds the encoding of the second document: the document
    written replaces the blob as a whole (writing the same document twice
    leaves it there). *)
Theorem write_twice_keeps_last (self : GithubDB) (D1 D2 : value)
  (msg1 msg2 text1 text2 : string) (n1 n2 : Z) (w : world) :
  calm (script w) = true ->
  encode D1 = (text1, true) ->
  encode D2 = (text2, true) ->
  0 < n1 -> 0 < n2 ->
  exists w1 w2,
    write_data self D1 msg1 n1 w = (Ret true, w1)
    /\ write_data self D2 msg2 n2 w1 = (Ret true, w2)
    /\ persisted self w1 = Some text1
    /\ persisted self w2 = Some text2
    /\ length (new_calls w w2) = 4%nat.
Proof.
  intros Hcalm H1 H2 Hn1 Hn2.
  destruct (write_calm self D1 msg1 text1 n1 w Hcalm H1 Hn1)
    as (w1 & a1 & a2 & Hw1 & Hp1 & Hcalm1 & Hc1 & _).
  destruct (write_calm self D2 msg2 text2 n2 w1 Hcalm1 H2 Hn2)
    as (w2 & b1 & b2 & Hw2 & Hp2 & _ & Hc2 & _).
  exists w1, w2. repeat split; auto.
  now rewrite (new_calls_trans _ _ _ _ _ Hc1 Hc2).
Qed.

(** X3: bootstrap.  When the blob does not exist, a read with a truthy,
    encodable default in a quiet environment returns the default and
    leaves the blob holding exactly the default's encoding; a later read
    returns what the decoder reads from it. *)
Theorem bootstrap_creates_blob (self : GithubDB) (d : value) (text : string)
  (w : world) :
  calm (script w) = true ->
  persisted self w = None ->
  truthy d = true ->
  encode d = (text, true) ->
  exists w',
    read_data self d w = (Ret d, w')
    /\ persisted self w' = Some text
    /\ length (filter (fun c => is_write c = true) (new_calls w w')) = (if use_local self then 2 else 1)%nat
    /\ forall d' v, loads text = Some v ->
                    exists w'', read_data self d' w' = (Ret v, w'').
Proof.
  intros Hcalm Hnone Htruthy Henc. unfold persisted in Hnone.
  assert (Hpos : 0 < 3) by lia.
  assert (Hfirst : exists w',
    read_data self d w = (Ret d, w')
    /\ persisted self w' = Some text
    /\ calm (script w') = true
    /\ length (filter (fun c => is_write c = true) (new_calls w w'))
       = (if use_local self then 2 else 1)%nat).
  { unfold read_data. destruct (use_local self) eqn:Hmode.
    - destruct (write_calm self d "Initialize local data.json" text 3 w
                  Hcalm Henc Hpos)
        as (w1 & c1 & c2 & Hwrite & Hp1 & Hcalm1 & Hc1 & Hk1 & Hk2).
      exists w1. unfold read_local, try_except, bind, path_exists.
      rewrite Hnone, bool_decide_eq_false_2 by (intros [? ?]; discriminate).
      rewrite Htruthy, Hwrite. split; [reflexivity|]. split; [exact Hp1|].
      split; [exact Hcalm1|].
      rewrite (new_calls_app _ _ _ Hc1), Hmode in *.
      rewrite !filter_cons, Hk1, Hk2. reflexivity.
    - destruct (get_contents_calm (file_path self) w Hcalm)
        as (w1 & Hget & _ & Hr1 & _ & Hcalm1 & c0 & Hc0 & Hk0 & _).
      destruct (repo w !! file_path self) as [b|] eqn:Hb; [discriminate|].
      destruct (write_calm self d "Initialize data.json" text 3 w1
                  Hcalm1 Henc Hpos)
        as (w2 & c1 & c2 & Hwrite & Hp2 & Hcalm2 & Hc1 & Hk1 & Hk2).
      exists w2. unfold read_remote, try_except, bind. rewrite Hget. simpl.
      rewrite Htruthy, Hwrite. split; [reflexivity|]. split; [exact Hp2|].
      split; [exact Hcalm2|].
      rewrite (new_calls_trans _ _ _ _ _ Hc0 Hc1), Hmode in *. simpl.
      rewrite !filter_cons, Hk0, Hk1, Hk2. reflexivity. }
  destruct Hfirst as (w' & Hread & Hp & Hcalm' & Hlen).
  exists w'. repeat split; auto.
  intros d' v Hparse.
  destruct (read_calm self d' v text w' Hcalm' Hp Hparse) as (w'' & c & H & _).
  eauto.
Qed.

(** X4: bootstrap with a default the encoder fails on.  The read still
    returns the default.  In GitHub mode nothing is created; in local mode
    the file now exists and holds what the encoder had emitted. *)
Theorem bootstrap_unencodable_default (self : GithubDB) (d : value)
  (partial : string) (w : world) :
  calm (script w) = true ->
  persisted self w = None ->
  truthy d = true ->
  encode d = (partial, false) ->
  exists w',
    read_data self d w = (Ret d, w')
    /\ persisted self w' = if use_local self then Some partial else None.
Proof.
  intros Hcalm Hnone Htruthy Henc. unfold persisted in *. unfold read_data.
  destruct (use_local self) eqn:Hmode.
  - destruct (open_write_calm (local_file_path self) w Hcalm)
      as (w1 & c1 & Hopen & Hd1 & _ & Hcalm1 & _).
    destruct (next_event_calm w1 Hcalm1) as (w2 & Hnext & Hd2 & _).
    unfold read_local, try_except, bind, path_exists.
    rewrite Hnone, bool_decide_eq_false_2 by (intros [? ?]; discriminate).
    rewrite Htruthy. unfold write_data. rewrite Hmode.
    unfold write_local, try_except, bind. rewrite Hopen.
    unfold json_dump. rewrite Hnext. simpl. rewrite Henc. simpl.
    eexists. split; [reflexivity|]. simpl. apply lookup_insert_eq.
  - destruct (get_contents_calm (file_path self) w Hcalm)
      as (w1 & Hget & _ & Hr1 & _ & Hcalm1 & _).
    destruct (repo w !! file_path self) as [b|] eqn:Hb; [discriminate|].
    destruct (get_contents_calm (file_path self) w1 Hcalm1)
      as (w2 & Hget2 & _ & Hr2 & _).
    rewrite Hr1, Hb in Hget2.
    unfold read_remote, try_except, bind. rewrite Hget. simpl.
    rewrite Htruthy. unfold write_data. rewrite Hmode.
    unfold write_remote. simpl. unfold try_except, bind, attempt, try_except.
    unfold bind. rewrite Hget2. simpl. unfold json_dumps. rewrite Henc. simpl.
    unfold py_or. rewrite Htruthy.
    eexists. split; [reflexivity|]. now rewrite Hr2, Hr1, Hb.
Qed.

(** *** Concurrent writers *)

(** A concurrent commit between the fetch and the update of an attempt:
    the update presents the token fetched before, and is refused. *)
Lemma attempt_stale_token (self : GithubDB) (v : value) (msg text other : string)
  (rest : list event) (b : blob) (w : world) :
  repo w !! file_path self = Some b ->
  blob_sha b <> next_sha w ->
  script w = Quiet :: Race (file_path self) other :: rest ->
  encode v = (text, true) ->
  exists w1 c1 c2,
    attempt self v msg w = (conflict, w1)
    /\ repo w1 = <[file_path self := Blob other (next_sha w)]> (repo w)
    /\ script w1 = rest
    /\ calls w1 = calls w ++ [c1; c2].
Proof.
  intros Hb Hsha Hs Henc.
  unfold attempt, try_except. unfold bind at 1.
  unfold get_contents, next_event. rewrite Hs. simpl. rewrite Hb.
  unfold bind, json_dumps. rewrite Henc. simpl.
  unfold update_file, next_event. simpl. rewrite lookup_insert_eq. simpl.
  destruct (N.eqb (next_sha w) (blob_sha b)) eqn:Heq.
  - apply N.eqb_eq in Heq. congruence.
  - simpl. eexists _, _, _. split; [reflexivity|]. simpl.
    rewrite <- app_assoc. auto.
Qed.

(** X5: a concurrent writer commits between the fetch and the update of
    the first attempt.  The stale token is refused: with a single attempt
    allowed the write returns [False] and the blob keeps the other writer's
    text; with more, the second attempt fetches the new token and replaces
    that text. *)
Theorem stale_token_is_refused (self : GithubDB) (v : value)
  (msg text other : string) (rest : list event) (b : blob)
  (max_retries : Z) (w : world) :
  use_local self = false ->
  repo w !! file_path self = Some b ->
  blob_sha b <> next_sha w ->
  script w = Quiet :: Race (file_path self) other :: rest ->
  calm rest = true ->
  encode v = (text, true) ->
  0 < max_retries ->
  exists w',
    write_data self v msg max_retries w = (Ret (1 <? max_retries), w')
    /\ persisted self w' = Some (if 1 <? max_retries then text else other)
    /\ length (new_calls w w') = if 1 <? max_retries then 4%nat else 2%nat.
Proof.
  intros Hmode Hb Hsha Hs Hcalm Henc Hpos.
  destruct (attempt_stale_token self v msg text other rest b w Hb Hsha Hs Henc)
    as (w1 & c1 & c2 & Hatt & Hr1 & Hs1 & Hc1).
  unfold write_data, persisted. rewrite Hmode. unfold write_remote.
  destruct (Z.to_nat max_retries) as [|todo] eqn:Htodo; [lia|].
  simpl. unfold try_except at 1. unfold bind at 1. rewrite Hatt. simpl.
  destruct (1 <? max_retries) eqn:Hmore.
  - apply Z.ltb_lt in Hmore.
    assert (Hlt : (0 <? max_retries - 1) = true) by (apply Z.ltb_lt; lia).
    rewrite Hlt. destruct todo as [|todo]; [lia|]. simpl.
    rewrite <- Hs1 in Hcalm.
    destruct (attempt_calm self v msg text w1 Hcalm Henc)
      as (w2 & c3 & c4 & Hatt2 & _ & Hr2 & _ & Hc2 & _).
    unfold try_except, bind. rewrite Hatt2.
    exists w2. split; [reflexivity|]. rewrite Hr2, lookup_insert_eq.
    split; [reflexivity|].
    now rewrite (new_calls_trans _ _ _ _ _ Hc1 Hc2).
  - apply Z.ltb_ge in Hmore.
    assert (Hlt : (0 <? max_retries - 1) = false) by (apply Z.ltb_ge; lia).
    rewrite Hlt. exists w1. split; [reflexivity|].
    rewrite Hr1, lookup_insert_eq. split; [reflexivity|].
    now rewrite (new_calls_app _ _ _ Hc1).
Qed.

(** X6: the blob is absent at the fetch and a concurrent writer creates it
    before this write does.  The creation is refused (status 422) and is
    not retried: the write returns [False] after two operations, whatever
    the number of attempts allowed, and the blob keeps the other writer's
    text. *)
Theorem create_race_is_not_retried (self : GithubDB) (v : value)
  (msg text other : string) (rest : list event) (max_retries : Z) (w : world) :
  use_local self = false ->
  repo w !! file_path self = None ->
  script w = Quiet :: Race (file_path self) other :: rest ->
  encode v = (text, true) ->
  0 < max_retries ->
  exists w',
    write_data self v msg max_retries w = (Ret false, w')
    /\ persisted self w' = Some other
    /\ script w' = rest
    /\ length (new_calls w w') = 2%nat.
Proof.
  intros Hmode Hb Hs Henc Hpos.
  unfold write_data, persisted. rewrite Hmode. unfold write_remote.
  destruct (Z.to_nat max_retries) as [|todo] eqn:Htodo; [lia|].
  simpl. unfold try_except at 1. unfold bind at 1.
  unfold attempt, try_except. unfold bind at 1.
  unfold get_contents, next_event. rewrite Hs. simpl. rewrite Hb. simpl.
  unfold bind, json_dumps. rewrite Henc. simpl.
  unfold create_file, next_event. simpl. rewrite lookup_insert_eq. simpl.
  eexists. split; [reflexivity|]. simpl. rewrite lookup_insert_eq.
  repeat split. unfold new_calls. simpl.
  rewrite <- app_assoc, drop_app_length. reflexivity.
Qed.

(** *** The store keeps to its blob *)

Lemma confined_refl (self : GithubDB) (w : world) : confined self 0 w w.
Proof.
  split; [exists []; rewrite app_nil_r; auto|].
  split; [now destruct (use_local self)|].
  intros Hrf. split; [exact Hrf|]. intros p _. now destruct (use_local self).
Qed.

Lemma confined_trans (self : GithubDB) (n1 n2 : nat) (w w1 w2 : world) :
  confined self n1 w w1 -> confined self n2 w1 w2 ->
  confined self (n1 + n2) w w2.
Proof.
  intros ((l1 & Hc1 & Hf1 & Hn1) & Hm1 & Hp1) ((l2 & Hc2 & Hf2 & Hn2) & Hm2 & Hp2).
  split; [|split].
  - exists (l1 ++ l2). rewrite Hc2, Hc1, app_assoc. split; [reflexivity|].
    split; [now apply Forall_app|]. rewrite length_app. lia.
  - destruct (use_local self); congruence.
  - intros Hrf. destruct (Hp1 Hrf) as [Hrf1 Hq1].
    destruct (Hp2 Hrf1) as [Hrf2 Hq2]. split; [exact Hrf2|].
    intros p Hp. specialize (Hq1 p Hp). specialize (Hq2 p Hp).
    destruct (use_local self); congruence.
Qed.

Lemma confined_le (self : GithubDB) (n m : nat) (w w' : world) :
  (n <= m)%nat -> confined self n w w' -> confined self m w w'.
Proof.
  intros Hle ((l & Hc & Hf & Hn) & Hrest). split; [|exact Hrest].
  exists l. repeat split; auto. lia.
Qed.

Lemma confined_step (self : GithubDB) (n : nat) (w w1 w2 : world) :
  confined self 1 w w1 -> confined self n w1 w2 -> confined self (S n) w w2.
Proof. apply (confined_trans self 1 n). Qed.

Ltac confine_remote Hmode Hs :=
  unfold confined, on_blob, blob_path; rewrite Hmode; simpl;
  repeat match goal with
    | H : race_free (script _) = true |- _ => rewrite Hs in H; simpl in H
    | |- _ /\ _ => split
    | |- exists l, ?c ++ [?x] = ?c ++ l /\ _ => exists [x]
    | |- exists l, ?c = ?c ++ l /\ _ => exists []; rewrite app_nil_r
    | |- Forall _ [_] => constructor
    | |- Forall _ [] => constructor
    | |- forall _, _ => intro
    | H : false = true |- _ => discriminate H
    | |- context [bool_decide (?p = ?p)] => rewrite bool_decide_eq_true_2 by reflexivity
    | |- <[?p := _]> _ !! ?q = _ => rewrite lookup_insert_ne by congruence
    | _ => progress (simpl in *)
    end;
  auto; try lia.

Lemma get_contents_confined (self : GithubDB) (w : world) r w' :
  use_local self = false ->
  get_contents (file_path self) w = (r, w') ->
  confined self 1 w w'.
Proof.
  intros Hmode H. unfold get_contents, next_event in H.
  destruct (script w) as [|[ |e|p c|e n] rest] eqn:Hs; simpl in H;
    injection H as <- <-; confine_remote Hmode Hs; rewrite ?Hs; auto.
Qed.

Lemma update_file_confined (self : GithubDB) (msg text : string) (sha : N)
  (w : world) r w' :
  use_local self = false ->
  update_file (file_path self) msg text sha w = (r, w') ->
  confined self 1 w w'.
Proof.
  intros Hmode H. unfold update_file, next_event in H.
  destruct (script w) as [|[ |e|p c|e n] rest] eqn:Hs; simpl in H;
    try (match type of H with
         | context [@lookup _ _ _ _ ?k ?m] =>
             destruct (@lookup _ _ _ _ k m) as [b|];
             [destruct (N.eqb (blob_sha b) sha)|]
         end);
    injection H as <- <-; confine_remote Hmode Hs; rewrite ?Hs; auto.
Qed.

Lemma create_file_confined (self : GithubDB) (msg text : string)
  (w : world) r w' :
  use_local self = false ->
  create_file (file_path self) msg text w = (r, w') ->
  confined self 1 w w'.
Proof.
  intros Hmode H. unfold create_file, next_event in H.
  destruct (script w) as [|[ |e|p c|e n] rest] eqn:Hs; simpl in H;
    try (match type of H with
         | context [@lookup _ _ _ _ ?k ?m] =>
             destruct (@lookup _ _ _ _ k m) as [b|]
         end);
    injection H as <- <-; confine_remote Hmode Hs; rewrite ?Hs; auto.
Qed.

Lemma open_read_confined (self : GithubDB) (w : world) r w' :
  use_local self = true ->
  open_read (local_file_path self) w = (r, w') ->
  confined self 1 w w'.
Proof.
  intros Hmode H. unfold open_read, next_event in H.
  destruct (script w) as [|[ |e|p c|e n] rest] eqn:Hs; simpl in H;
    injection H as <- <-; confine_remote Hmode Hs; rewrite ?Hs; auto.
Qed.

Lemma open_write_confined (self : GithubDB) (w : world) r w' :
  use_local self = true ->
  open_write (local_file_path self) w = (r, w') ->
  confined self 1 w w'.
Proof.
  intros Hmode H. unfold open_write, next_event in H.
  destruct (script w) as [|[ |e|p c|e n] rest] eqn:Hs; simpl in H;
    injection H as <- <-; confine_remote Hmode Hs; rewrite ?Hs; auto.
Qed.

Lemma json_dump_confined (self : GithubDB) (v : value) (w : world) r w' :
  use_local self = true ->
  json_dump v (local_file_path self) w = (r, w') ->
  confined self 1 w w'.
Proof.
  intros Hmode H. unfold json_dump, next_event in H.
  destruct (script w) as [|[ |e|p c|e n] rest] eqn:Hs; simpl in H;
    try (destruct (encode v) as [text [|]]);
    injection H as <- <-; confine_remote Hmode Hs; rewrite ?Hs; auto.
Qed.

Lemma create_branch_confined (self : GithubDB) (v : value) (msg : string)
  (w : world) r w' :
  use_local self = false ->
  bind (json_dumps v) (fun text => create_file (file_path self) msg text) w
  = (r, w') ->
  confined self 1 w w'.
Proof.
  intros Hmode H. unfold bind in H.
  destruct (json_dumps_cases v w) as [(text & _ & Hd)|Hd]; rewrite Hd in H.
  - now apply create_file_confined in H.
  - injection H as <- <-. apply (confined_le self 0); [lia|apply confined_refl].
Qed.

Lemma attempt_confined (self : GithubDB) (v : value) (msg : string)
  (w : world) r w' :
  use_local self = false ->
  attempt self v msg w = (r, w') ->
  confined self 3 w w'.
Proof.
  intros Hmode H. unfold attempt, try_except in H. unfold bind at 1 in H.
  destruct (get_contents (file_path self) w) as [g w1] eqn:Hget.
  pose proof (get_contents_frame _ _ _ _ Hget) as (_ & _ & _ & Hpath).
  apply (get_contents_confined self) in Hget; [|exact Hmode].
  apply (confined_step self 2 w w1 w'); [exact Hget|].
  assert (Hstay : confined self 2 w1 w1)
    by (apply (confined_le self 0); [lia|apply confined_refl]).
  destruct g as [c|e].
  - unfold bind in H.
    destruct (json_dumps_cases v w1) as [(text & _ & Hd)|Hd]; rewrite Hd in H.
    + rewrite (Hpath c eq_refl) in H.
      destruct (update_file (file_path self) msg text (cf_sha c) w1)
        as [u w2] eqn:Hup.
      apply (update_file_confined self) in Hup; [|exact Hmode].
      apply (confined_step self 1 w1 w2 w'); [exact Hup|].
      destruct u as [[]|e].
      * injection H as <- <-.
        apply (confined_le self 0); [lia|apply confined_refl].
      * destruct e as [status| | | | |];
          try (injection H as <- <-;
               apply (confined_le self 0); [lia|apply confined_refl]).
        destruct (status =? 404).
        -- now apply (create_branch_confined self) in H.
        -- injection H as <- <-.
           apply (confined_le self 0); [lia|apply confined_refl].
    + injection H as <- <-. exact Hstay.
  - destruct e as [status| | | | |]; try (injection H as <- <-; exact Hstay).
    destruct (status =? 404).
    + apply (create_branch_confined self) in H; [|exact Hmode].
      now apply (confined_le self 1); [lia|].
    + injection H as <- <-. exact Hstay.
Qed.

Lemma write_loop_confined (self : GithubDB) (v : value) (msg : string)
  (max_retries : Z) (todo : nat) :
  use_local self = false ->
  forall (attempt_no : Z) (w : world) r w',
  write_loop self v msg max_retries attempt_no todo w = (r, w') ->
  confined self (3 * todo) w w'.
Proof.
  intros Hmode. induction todo as [|todo IH]; intros attempt_no w r w' H;
    simpl in H.
  - injection H as <- <-. apply confined_refl.
  - unfold try_except in H. unfold bind in H.
    destruct (attempt self v msg w) as [a w1] eqn:Hatt.
    apply (attempt_confined self) in Hatt; [|exact Hmode].
    replace (3 * S todo)%nat with (3 + 3 * todo)%nat by lia.
    apply (confined_trans self 3 (3 * todo) w w1 w'); [exact Hatt|].
    assert (Hstay : confined self (3 * todo) w1 w1)
      by (apply (confined_le self 0); [lia|apply confined_refl]).
    destruct a as [[]|e]; [injection H as <- <-; exact Hstay|].
    destruct e as [status| | | | |]; try (injection H as <- <-; exact Hstay).
    destruct ((status =? 409) && (attempt_no <? max_retries - 1)).
    + now apply IH in H.
    + injection H as <- <-. exact Hstay.
Qed.

Lemma write_local_confined (self : GithubDB) (v : value) (w : world) r w' :
  use_local self = true ->
  write_local self v w = (r, w') ->
  confined self 2 w w'.
Proof.
  intros Hmode H. unfold write_local, try_except, bind in H.
  destruct (open_write (local_file_path self) w) as [o w1] eqn:Hopen.
  apply (open_write_confined self) in Hopen; [|exact Hmode].
  apply (confined_step self 1 w w1 w'); [exact Hopen|].
  destruct o as [[]|e].
  - destruct (json_dump v (local_file_path self) w1) as [d w2] eqn:Hdump.
    apply (json_dump_confined self) in Hdump; [|exact Hmode].
    destruct d as [[]|e]; now injection H as <- <-.
  - injection H as <- <-.
    apply (confined_le self 0); [lia|apply confined_refl].
Qed.

Lemma write_data_confined (self : GithubDB) (v : value) (msg : string)
  (max_retries : Z) (w : world) r w' :
  write_data self v msg max_retries w = (r, w') ->
  confined self (write_budget self max_retries) w w'.
Proof.
  unfold write_data, write_budget. destruct (use_local self) eqn:Hmode; intros H.
  - now apply write_local_confined in H.
  - unfold write_remote in H. now apply write_loop_confined in H.
Qed.

Lemma read_data_confined (self : GithubDB) (d : value) (w : world) r w' :
  read_data self d w = (r, w') ->
  confined self (if use_local self then 2 else 10) w w'.
Proof.
  unfold read_data. destruct (use_local self) eqn:Hmode; intros H.
  - unfold read_local, try_except, bind, path_exists in H.
    assert (Hstay : confined self 2 w w)
      by (apply (confined_le self 0); [lia|apply confined_refl]).
    destruct (bool_decide _).
    + destruct (open_read (local_file_path self) w) as [o w1] eqn:Hopen.
      apply (open_read_confined self) in Hopen; [|exact Hmode].
      apply (confined_le self 1); [lia|].
      destruct o as [text|e]; [|now injection H as <- <-].
      unfold json_loads in H. destruct (loads text); now injection H as <- <-.
    + destruct (truthy d); [|now injection H as <- <-].
      destruct (write_data self d "Initialize local data.json" 3 w)
        as [b w1] eqn:Hw.
      apply write_data_confined in Hw. unfold write_budget in Hw.
      rewrite Hmode in Hw. destruct b; now injection H as <- <-.
  - unfold read_remote, try_except, bind in H.
    destruct (get_contents (file_path self) w) as [g w1] eqn:Hget.
    apply (get_contents_confined self) in Hget; [|exact Hmode].
    apply (confined_step self 9 w w1 w'); [exact Hget|].
    assert (Hstay : confined self 9 w1 w1)
      by (apply (confined_le self 0); [lia|apply confined_refl]).
    destruct g as [c|e].
    + unfold json_loads in H.
      destruct (loads (decoded_content c)); now injection H as <- <-.
    + destruct e as [status| | | | |]; try (now injection H as <- <-).
      destruct (status =? 404); [|now injection H as <- <-].
      destruct (truthy d); [|now injection H as <- <-].
      destruct (write_data self d "Initialize data.json" 3 w1)
        as [b w2] eqn:Hw.
      apply write_data_confined in Hw. unfold write_budget in Hw.
      rewrite Hmode in Hw. simpl in Hw.
      destruct b as [[|]|e]; now injection H as <- <-.
Qed.

Lemma confined_calls (self : GithubDB) (n : nat) (w w' : world) :
  confined self n w w' ->
  Forall (fun c => on_blob self c = true) (new_calls w w')
  /\ (length (new_calls w w') <= n)%nat.
Proof.
  intros ((l & Hc & Hf & Hn) & _). now rewrite (new_calls_app _ _ _ Hc).
Qed.

Lemma confined_kept (self : GithubDB) (n : nat) (w w' : world) :
  confined self n w w' -> kept_to_blob self w w'.
Proof.
  intros Hconf. split; [now apply (confined_calls self n)|].
  destruct Hconf as (_ & Hother & Hpaths). split; [exact Hother|].
  intros Hrf. now apply Hpaths.
Qed.

(** X7: whatever the environment does, every operation that [write_data]
    and [read_data] make is on the backing blob of the store, in the
    medium of its mode; the other medium is left as it was, and so is,
    no concurrent writer being around, every other path of its own. *)
Theorem store_keeps_to_its_blob (self : GithubDB) (v d : value) (msg : string)
  (max_retries : Z) (w : world) :
  kept_to_blob self w (snd (write_data self v msg max_retries w))
  /\ kept_to_blob self w (snd (read_data self d w)).
Proof.
  split.
  - destruct (write_data self v msg max_retries w) as [r w1] eqn:H.
    apply write_data_confined in H. now apply confined_kept in H.
  - destruct (read_data self d w) as [r w1] eqn:H.
    apply read_data_confined in H. now apply confined_kept in H.
Qed.

(** X8: a write takes at most two file operations in local mode and at
    most three API calls per attempt allowed in GitHub mode; a read takes
    at most two file operations, or at most ten API calls (the fetch and
    the three attempts of a bootstrap). *)
Theorem operations_are_bounded (self : GithubDB) (v d : value) (msg : string)
  (max_retries : Z) (w : world) :
  (length (new_calls w (snd (write_data self v msg max_retries w)))
   <= write_budget self max_retries)%nat
  /\ (length (new_calls w (snd (read_data self d w)))
      <= if use_local self then 2 else 10)%nat.
Proof.
  split.
  - destruct (write_data self v msg max_retries w) as [r w1] eqn:H.
    apply write_data_confined in H. now apply confined_calls in H.
  - destruct (read_data self d w) as [r w1] eqn:H.
    apply read_data_confined in H. now apply confined_calls in H.
Qed.

Lemma open_read_calls (path : string) (w : world) :
  calls (snd (open_read path w))
  = calls w ++ [OpenRead path (fst (open_read path w))].
Proof.
  unfold open_read, next_event.
  destruct (script w) as [|[ |e|p c|e n] rest]; reflexivity.
Qed.

(** X9: when the medium does not report the blob absent, a read makes one
    operation, the fetch, and never writes: whether the fetch fails, the
    text does not parse, or all goes well. *)
Theorem read_existing_is_read_only (self : GithubDB) (d : value) (w : world) :
  ~ not_found self w ->
  exists c,
    new_calls w (snd (read_data self d w)) = [c]
    /\ is_write c = false /\ on_blob self c = true.
Proof.
  unfold not_found, read_data, on_blob, blob_path.
  destruct (use_local self); intros Hfound.
  - unfold read_local, try_except, bind, path_exists.
    rewrite bool_decide_eq_true_2
      by (destruct (disk w !! local_file_path self); [eauto|contradiction]).
    pose proof (open_read_calls (local_file_path self) w) as Hc.
    destruct (open_read (local_file_path self) w) as [[text|e] w1];
      simpl in Hc.
    + unfold json_loads. destruct (loads text); simpl;
        rewrite (new_calls_app _ _ _ Hc); eexists; repeat split;
        simpl; now rewrite bool_decide_eq_true_2.
    + simpl. rewrite (new_calls_app _ _ _ Hc). eexists. repeat split.
      simpl. now rewrite bool_decide_eq_true_2.
  - unfold read_remote, try_except, bind.
    pose proof (get_contents_calls (file_path self) w) as Hc.
    destruct (get_contents (file_path self) w) as [[c|e] w1];
      simpl in Hc, Hfound.
    + unfold json_loads. destruct (loads (decoded_content c)); simpl;
        rewrite (new_calls_app _ _ _ Hc); eexists; repeat split;
        simpl; now rewrite bool_decide_eq_true_2.
    + assert (Hnone : forall status, e = GithubException status ->
                                     (status =? 404) = false).
      { intros status ->. apply Z.eqb_neq. intros ->. now apply Hfound. }
      destruct e as [status| | | | |]; try rewrite (Hnone status eq_refl);
        simpl; rewrite (new_calls_app _ _ _ Hc); eexists; repeat split;
        simpl; now rewrite bool_decide_eq_true_2.
Qed.

(** ** Properties of the page's handlers *)

Lemma lookup_set_same (key : string) (v : value) (items : list (string * value)) :
  App.lookup_key key (App.set_key key v items) = Some v.
Proof.
  induction items as [|[k x] items IH]; simpl.
  - now rewrite String.eqb_refl.
  - destruct (String.eqb k key) eqn:Hk; simpl; now rewrite Hk.
Qed.

Lemma lookup_set_other (key k : string) (v : value)
  (items : list (string * value)) :
  k <> key ->
  App.lookup_key k (App.set_key key v items) = App.lookup_key k items.
Proof.
  intros Hne. induction items as [|[k0 x] items IH]; simpl.
  - destruct (String.eqb key k) eqn:Hk; [|reflexivity].
    apply String.eqb_eq in Hk. congruence.
  - destruct (String.eqb k0 key) eqn:Hk0; simpl.
    + apply String.eqb_eq in Hk0. subst k0.
      destruct (String.eqb key k) eqn:Hk; [|reflexivity].
      apply String.eqb_eq in Hk. congruence.
    + now rewrite IH.
Qed.

(** Keys keep their order; a new key goes last. *)
Lemma keys_set_key (key : string) (v : value) (items : list (string * value)) :
  map fst (App.set_key key v items)
  = match App.lookup_key key items with
    | Some _ => map fst items
    | None => map fst items ++ [key]
    end.
Proof.
  induction items as [|[k x] items IH]; simpl; [reflexivity|].
  destruct (String.eqb k key) eqn:Hk; simpl; [reflexivity|].
  rewrite IH. now destruct (App.lookup_key key items).
Qed.

Lemma write_true_persisted (self : GithubDB) (v : value) (msg : string)
  (max_retries : Z) (w w' : world) :
  write_data self v msg max_retries w = (Ret true, w') ->
  exists text, encode v = (text, true) /\ persisted self w' = Some text.
Proof.
  unfold write_data, persisted. destruct (use_local self); intros H.
  - apply write_local_outcome in H as [H _]. now apply H.
  - unfold write_remote in H. apply write_loop_outcome in H as [H _].
    destruct (H eq_refl) as (text & s & Henc & Hblob).
    exists text. now rewrite Hblob.
Qed.

Lemma count_one_more_dict (current_data data' : value) :
  App.count_one_more current_data = App.Done data' ->
  exists items n,
    current_data = VDict items
    /\ App.visitors_of items = Some n
    /\ data' = VDict (App.set_key "visitors" (VInt (n + 1)) items).
Proof.
  unfold App.count_one_more, App.dict_get, App.visitors_of.
  destruct current_data as [| | | | |items|]; try discriminate. simpl.
  destruct (App.lookup_key "visitors" items) as [[|b|n| | | |]|] eqn:Hl;
    try discriminate; simpl; intros [= <-];
    eexists items, _; rewrite Hl; repeat split; reflexivity.
Qed.

(** X15: the visit counter.  A session already counted makes no access to
    the store.  Otherwise the session is marked counted only when the
    write returned [True]: the document read was a dictionary, the store
    then holds the encoding of that document with its visitor count plus
    one (a missing count is 0) and every other key as it was, and that
    document becomes the page's; when the session is not marked, the
    page's document is unchanged. *)
Theorem visit_is_counted_once (self : GithubDB) (data : value) (w : world) :
  count_visit self true data w = (App.Done (true, data), w)
  /\ forall visited' data' w',
       count_visit self false data w = (App.Done (visited', data'), w') ->
       if visited' then
         exists items n text,
           fst (read_data self VNone w) = Ret (VDict items)
           /\ App.visitors_of items = Some n
           /\ data' = VDict (App.set_key "visitors" (VInt (n + 1)) items)
           /\ App.getitem data' "visitors" = App.Done (VInt (n + 1))
           /\ (forall k, k <> "visitors" ->
                         App.getitem data' k = App.getitem (VDict items) k)
           /\ encode data' = (text, true)
           /\ persisted self w' = Some text
       else data' = data.
Proof.
  split; [reflexivity|]. intros visited' data' w'. unfold count_visit.
  destruct (read_data self VNone w) as [[current_data|e] w1] eqn:Hread;
    [|discriminate].
  destruct (truthy current_data); [|now intros [= <- <- <-]].
  destruct (App.count_one_more current_data) as [doc|u] eqn:Hcount;
    [|discriminate].
  destruct (write_data self doc "Increment visitor count" 3 w1)
    as [[[|]|e] w2] eqn:Hwrite; try discriminate; intros [= <- <- <-];
    [|reflexivity].
  apply count_one_more_dict in Hcount as (items & n & -> & Hn & ->).
  apply write_true_persisted in Hwrite as (text & Henc & Hp).
  exists items, n, text. repeat split; auto.
  - simpl. now rewrite lookup_set_same.
  - intros k Hk. simpl. now rewrite lookup_set_other.
Qed.

Lemma append_longer (a b : string) : b <> EmptyString -> a +:+ b <> a.
Proof.
  intros Hb. induction a as [|c a IH].
  - exact Hb.
  - intros H. apply IH. change (String c (a +:+ b) = String c a) in H.
    now injection H.
Qed.

Lemma store_articles_dict (current_data doc : value) (today stamp : string)
  (articles : list value) :
  App.store_articles current_data today stamp articles = App.Done doc ->
  exists items old,
    current_data = VDict items
    /\ (App.lookup_key "collected_news" items = Some (VDict old)
        \/ App.lookup_key "collected_news" items = None /\ old = [])
    /\ exists items',
         doc = VDict items'
         /\ App.lookup_key "collected_news" items'
            = Some (VDict (App.set_key (today +:+ "_collected_at") (VStr stamp)
                             (App.set_key today (VList articles) old)))
         /\ forall k, k <> "collected_news" ->
                      App.lookup_key k items' = App.lookup_key k items.
Proof.
  unfold App.store_articles.
  destruct current_data as [| | |text|xs|items|]; try discriminate.
  - (* a string *)
    simpl. destruct (App.contains "collected_news" text); discriminate.
  - (* a list *)
    simpl. destruct (existsb _ xs); discriminate.
  - simpl. destruct (App.lookup_key "collected_news" items) as [v|] eqn:Hl.
    + simpl. rewrite Hl. simpl.
      destruct v as [| | | | |old|]; try discriminate. simpl.
      intros [= <-]. exists items, old. split; [reflexivity|].
      split; [now left|]. eexists. split; [reflexivity|].
      split; [apply lookup_set_same|].
      intros k Hk. now apply lookup_set_other.
    + simpl. rewrite lookup_set_same. simpl. intros [= <-].
      exists items, []. split; [reflexivity|]. split; [now right|].
      eexists. split; [reflexivity|]. split; [apply lookup_set_same|].
      intros k Hk. now rewrite !lookup_set_other.
Qed.

(** X16: collecting the news.  When the collector returns no article the
    store is not accessed.  When the handler reports the collection saved,
    the document read was a dictionary and the store holds the encoding of
    that document with, under [collected_news], the articles at the day's
    key and the time at the day's [_collected_at] key; the other days and
    every other key of the document are as they were. *)
Theorem collect_saves_the_day (self : GithubDB)
  (parse : string -> result App.feed) (now today stamp : string)
  (feeds keywords : list string) (w : world) :
  (App.fetch_news parse now feeds keywords = [] ->
   collect_news self parse now today stamp feeds keywords w
   = (App.Done App.NothingCollected, w))
  /\ forall w',
       collect_news self parse now today stamp feeds keywords w
       = (App.Done App.Saved, w') ->
       exists items old doc collected text,
         fst (read_data self VNone w) = Ret (VDict items)
         /\ (App.lookup_key "collected_news" items = Some (VDict old)
             \/ App.lookup_key "collected_news" items = None /\ old = [])
         /\ encode doc = (text, true)
         /\ persisted self w' = Some text
         /\ App.getitem doc "collected_news" = App.Done (VDict collected)
         /\ App.lookup_key today collected
            = Some (VList (App.fetch_news parse now feeds keywords))
         /\ App.lookup_key (today +:+ "_collected_at") collected
            = Some (VStr stamp)
         /\ (forall day, day <> today -> day <> today +:+ "_collected_at" ->
                         App.lookup_key day collected = App.lookup_key day old)
         /\ (forall k, k <> "collected_news" ->
                       App.getitem doc k = App.getitem (VDict items) k).
Proof.
  unfold collect_news. split; [now intros ->|]. intros w'.
  destruct (App.fetch_news parse now feeds keywords) as [|a rest] eqn:Hnews;
    [discriminate|].
  destruct (read_data self VNone w) as [[current_data|e] w1] eqn:Hread;
    [|discriminate].
  destruct (truthy current_data); [|discriminate].
  destruct (App.store_articles current_data today stamp (a :: rest))
    as [doc|u] eqn:Hstore; [|discriminate].
  destruct (write_data self doc ("Collect news for " +:+ today) 3 w1)
    as [[[|]|e] w2] eqn:Hwrite; try discriminate. intros [= <-].
  apply write_true_persisted in Hwrite as (text & Henc & Hp).
  apply store_articles_dict in Hstore
    as (items & old & -> & Hold & items' & -> & Hcn & Hother).
  exists items, old, (VDict items'),
    (App.set_key (today +:+ "_collected_at") (VStr stamp)
       (App.set_key today (VList (a :: rest)) old)), text.
  split; [reflexivity|]. split; [exact Hold|]. split; [exact Henc|].
  split; [exact Hp|]. split; [simpl; now rewrite Hcn|].
  assert (Hside : today +:+ "_collected_at" <> today)
    by (apply append_longer; discriminate).
  split; [rewrite lookup_set_other by congruence; apply lookup_set_same|].
  split; [apply lookup_set_same|]. split.
  - intros day H1 H2. now rewrite !lookup_set_other.
  - intros k Hk. simpl. now rewrite Hother.
Qed.

Lemma with_feed_dict (current_data doc : value) (new_feed : string) :
  App.with_feed current_data new_feed = App.Done doc ->
  exists items feeds,
    current_data = VDict items
    /\ App.lookup_key "feeds" items = Some (VList feeds)
    /\ doc = VDict (App.set_key "feeds" (VList (feeds ++ [VStr new_feed])) items).
Proof.
  unfold App.with_feed.
  destruct current_data as [| | | | |items|]; try discriminate. simpl.
  destruct (App.lookup_key "feeds" items) as [[| | | |feeds| |]|] eqn:Hl;
    try discriminate.
  simpl. intros [= <-]. exists items, feeds. now rewrite Hl.
Qed.

(** X17: adding a feed.  An empty input, or one that does not start with
    [http://] or [https://], never reaches the store.  When the handler
    reports the feed saved, the input is such a URL that the page did not
    list, the document read was a dictionary whose [feeds] is a list, and
    the store holds the encoding of that document with the input added at
    the end of [feeds] and every other key as it was; if all its feeds
    were valid URLs, they still are. *)
Theorem add_feed_appends_a_url (self : GithubDB) (data : value)
  (new_feed : string) (w : world) :
  (new_feed = EmptyString \/ App.is_http_url new_feed = false ->
   snd (add_feed self data new_feed w) = w
   /\ fst (add_feed self data new_feed w) <> App.Done App.Saved)
  /\ forall w',
       add_feed self data new_feed w = (App.Done App.Saved, w') ->
       App.is_http_url new_feed = true
       /\ App.obind (App.getitem data "feeds") (App.py_in new_feed)
          = App.Done false
       /\ exists items feeds doc text,
            fst (read_data self VNone w) = Ret (VDict items)
            /\ App.lookup_key "feeds" items = Some (VList feeds)
            /\ encode doc = (text, true)
            /\ persisted self w' = Some text
            /\ App.getitem doc "feeds"
               = App.Done (VList (feeds ++ [VStr new_feed]))
            /\ (forall k, k <> "feeds" ->
                          App.getitem doc k = App.getitem (VDict items) k)
            /\ (Forall App.valid_feed feeds ->
                Forall App.valid_feed (feeds ++ [VStr new_feed])).
Proof.
  unfold add_feed. split.
  - intros [-> | Hurl]; [simpl; split; [reflexivity|discriminate]|].
    destruct (String.eqb new_feed EmptyString);
      [simpl; split; [reflexivity|discriminate]|].
    destruct (App.obind _ _) as [[|]|u]; rewrite ?Hurl; simpl;
      split; try reflexivity; discriminate.
  - intros w'.
    destruct (String.eqb new_feed EmptyString); [discriminate|].
    destruct (App.obind _ _) as [[|]|u] eqn:Hpage; try discriminate.
    destruct (App.is_http_url new_feed) eqn:Hurl; [|discriminate].
    destruct (read_data self VNone w) as [[current_data|e] w1] eqn:Hread;
      [|discriminate].
    destruct (truthy current_data); [|discriminate].
    destruct (App.with_feed current_data new_feed) as [doc|u] eqn:Hwith;
      [|discriminate].
    destruct (write_data self doc "Add RSS feed" 3 w1)
      as [[[|]|e] w2] eqn:Hwrite; try discriminate. intros [= <-].
    apply write_true_persisted in Hwrite as (text & Henc & Hp).
    apply with_feed_dict in Hwith as (items & feeds & -> & Hfeeds & ->).
    split; [reflexivity|]. split; [reflexivity|].
    exists items, feeds,
      (VDict (App.set_key "feeds" (VList (feeds ++ [VStr new_feed])) items)),
      text.
    split; [reflexivity|]. split; [exact Hfeeds|]. split; [exact Henc|].
    split; [exact Hp|]. split; [simpl; now rewrite lookup_set_same|]. split.
    + intros k Hk. simpl. now rewrite lookup_set_other.
    + intros Hvalid. apply Forall_app. split; [exact Hvalid|].
      constructor; [|constructor]. exists new_feed. auto.
Qed.

Lemma remove_first_split (f : string) (feeds : list value) :
  existsb (App.is_str f) feeds = true ->
  exists before after,
    feeds = before ++ VStr f :: after
    /\ existsb (App.is_str f) before = false
    /\ App.remove_first f feeds = before ++ after.
Proof.
  induction feeds as [|x feeds IH]; [discriminate|]. simpl.
  destruct (App.is_str f x) eqn:Hx.
  - intros _. exists [], feeds. split; [|auto].
    destruct x; try discriminate. simpl in Hx.
    apply String.eqb_eq in Hx. now subst.
  - simpl. intros H. destruct (IH H) as (before & after & -> & Hb & Hr).
    exists (x :: before), after. simpl. rewrite Hx, Hr. auto.
Qed.

Lemma without_feed_dict (current_data doc : value) (f : string) :
  App.without_feed current_data f = App.Done doc ->
  exists items feeds,
    current_data = VDict items
    /\ App.lookup_key "feeds" items = Some (VList feeds)
    /\ existsb (App.is_str f) feeds = true
    /\ doc = VDict (App.set_key "feeds" (VList (App.remove_first f feeds)) items).
Proof.
  unfold App.without_feed.
  destruct current_data as [| | | | |items|]; try discriminate. simpl.
  destruct (App.lookup_key "feeds" items) as [[| | | |feeds| |]|] eqn:Hl;
    try discriminate.
  simpl. destruct (existsb (App.is_str f) feeds) eqn:Hin; [|discriminate].
  simpl. intros [= <-]. exists items, feeds. now rewrite Hl.
Qed.

(** X18: removing a feed.  When the handler reports the removal saved,
    the document read was a dictionary whose [feeds] list held the feed,
    and the store holds the encoding of that document with the first
    occurrence of the feed taken out of [feeds], the other feeds in their
    order and every other key as it was.  When the document read does not
    list the feed, nothing is written. *)
Theorem remove_feed_takes_first (self : GithubDB) (f : string) (w : world) :
  (forall w',
     remove_feed self f w = (App.Done App.Saved, w') ->
     exists items before after doc text,
       fst (read_data self VNone w)
       = Ret (VDict items)
       /\ App.lookup_key "feeds" items = Some (VList (before ++ VStr f :: after))
       /\ existsb (App.is_str f) before = false
       /\ encode doc = (text, true)
       /\ persisted self w' = Some text
       /\ App.getitem doc "feeds" = App.Done (VList (before ++ after))
       /\ (forall k, k <> "feeds" ->
                     App.getitem doc k = App.getitem (VDict items) k))
  /\ (forall items feeds,
        fst (read_data self VNone w) = Ret (VDict items) ->
        App.lookup_key "feeds" items = Some (VList feeds) ->
        existsb (App.is_str f) feeds = false ->
        fst (remove_feed self f w) <> App.Done App.Saved
        /\ snd (remove_feed self f w) = snd (read_data self VNone w)).
Proof.
  unfold remove_feed. split.
  - intros w'.
    destruct (read_data self VNone w) as [[current_data|e] w1] eqn:Hread;
      [|discriminate].
    destruct (truthy current_data); [|discriminate].
    destruct (App.obind _ _) as [[|]|u]; try discriminate.
    destruct (App.without_feed current_data f) as [doc|u] eqn:Hwithout;
      [|discriminate].
    destruct (write_data self doc "Remove RSS feed" 3 w1)
      as [[[|]|e] w2] eqn:Hwrite; try discriminate. intros [= <-].
    apply write_true_persisted in Hwrite as (text & Henc & Hp).
    apply without_feed_dict in Hwithout as (items & feeds & -> & Hfeeds & Hin & ->).
    destruct (remove_first_split f feeds Hin) as (before & after & -> & Hb & Hr).
    exists items, before, after,
      (VDict (App.set_key "feeds"
                (VList (App.remove_first f (before ++ VStr f :: after))) items)),
      text.
    split; [reflexivity|]. split; [exact Hfeeds|]. split; [exact Hb|].
    split; [exact Henc|]. split; [exact Hp|]. split.
    + simpl. now rewrite lookup_set_same, Hr.
    + intros k Hk. simpl. now rewrite lookup_set_other.
  - intros items feeds Hread Hfeeds Hnot.
    destruct (read_data self VNone w) as [r w1]. simpl in Hread. subst r.
    simpl. destruct items as [|item items]; [discriminate|].
    rewrite Hfeeds. simpl. rewrite Hnot. simpl. split; [discriminate|reflexivity].
Qed.

Lemma ends_with_app (suffix a : string) :
  App.ends_with suffix (a +:+ suffix) = true.
Proof.
  induction a as [|c a IH].
  - change (App.ends_with suffix suffix = true).
    destruct suffix; simpl; now rewrite ?Ascii.eqb_refl, ?String.eqb_refl.
  - change (String.eqb (String c (a +:+ suffix)) suffix
            || App.ends_with suffix (a +:+ suffix) = true).
    rewrite IH. apply orb_true_r.
Qed.

Lemma lookup_key_in (key : string) (v : value) (items : list (string * value)) :
  App.lookup_key key items = Some v -> In key (map fst items).
Proof.
  induction items as [|[k x] items IH]; [discriminate|]. simpl.
  destruct (String.eqb k key) eqn:Hk.
  - apply String.eqb_eq in Hk. auto.
  - auto.
Qed.

(** X19: after a collection reported saved, the document in the store
    offers the day among its dates, provided the day's key does not itself
    end with [_collected_at]; no date offered ends with [_collected_at], so
    the key that holds the time of collection is never offered. *)
Theorem collected_day_is_offered (self : GithubDB)
  (parse : string -> result App.feed) (now today stamp : string)
  (feeds keywords : list string) (w w' : world) :
  collect_news self parse now today stamp feeds keywords w
  = (App.Done App.Saved, w') ->
  App.ends_with "_collected_at" today = false ->
  exists doc text days,
    encode doc = (text, true)
    /\ persisted self w' = Some text
    /\ App.date_keys doc = App.Done days
    /\ In today days
    /\ ~ In (today +:+ "_collected_at") days
    /\ Forall (fun day => App.ends_with "_collected_at" day = false) days.
Proof.
  unfold collect_news. intros H Hday.
  destruct (App.fetch_news parse now feeds keywords) as [|a rest];
    [discriminate|].
  destruct (read_data self VNone w) as [[current_data|e] w1]; [|discriminate].
  destruct (truthy current_data); [|discriminate].
  destruct (App.store_articles current_data today stamp (a :: rest))
    as [doc|u] eqn:Hstore; [|discriminate].
  destruct (write_data self doc ("Collect news for " +:+ today) 3 w1)
    as [[[|]|e] w2] eqn:Hwrite; try discriminate. injection H as <-.
  apply write_true_persisted in Hwrite as (text & Henc & Hp).
  apply store_articles_dict in Hstore
    as (items & old & -> & _ & items' & -> & Hcn & _).
  eexists (VDict items'), text, _. split; [exact Henc|]. split; [exact Hp|].
  split; [unfold App.date_keys; simpl; rewrite Hcn; reflexivity|].
  assert (Hside : today +:+ "_collected_at" <> today)
    by (apply append_longer; discriminate).
  split; [|split].
  - apply filter_In. split; [|now rewrite Hday].
    apply (lookup_key_in today (VList (a :: rest))).
    rewrite lookup_set_other by congruence. apply lookup_set_same.
  - intros Hin. apply filter_In in Hin as [_ Hin].
    now rewrite ends_with_app in Hin.
  - apply List.Forall_forall. intros day Hin.
    apply filter_In in Hin as [_ Hin]. now apply negb_true_iff in Hin.
Qed.

Lemma with_report_dict (current_data doc : value) (today content stamp : string)
  (articles : list value) :
  App.with_report current_data today content stamp articles = App.Done doc ->
  exists items old,
    current_data = VDict items
    /\ App.lookup_key "reports" items = Some (VDict old)
    /\ doc = VDict (App.set_key "reports"
                      (VDict (App.set_key today
                                (VDict [("content", VStr content);
                                        ("sources", VList articles);
                                        ("created_at", VStr stamp)]) old))
                      items).
Proof.
  unfold App.with_report.
  destruct current_data as [| | | | |items|]; try discriminate. simpl.
  destruct (App.lookup_key "reports" items) as [[| | | | |old|]|] eqn:Hl;
    try discriminate.
  simpl. intros [= <-]. exists items, old. now rewrite Hl.
Qed.

(** X20: generating the briefing.  When the report is reported saved, the
    document read was a dictionary whose [reports] is a dictionary, and the
    store holds the encoding of that document with, at the day's key of
    [reports], the text returned by [analyze_with_gemini], the articles as
    sources and the time (a report of that day is replaced); the reports
    of the other days and every other key are as they were.  When the
    document read is a non-empty dictionary without [reports], the handler
    fails with [KeyError] and writes nothing: unlike [collected_news], the
    key is not created. *)
Theorem report_is_saved_under_the_day (self : GithubDB)
  (str_of : value -> string) (generate : string -> result string)
  (message_of : exn -> string) (today stamp : string)
  (articles : list value) (w : world) :
  (forall prompts w',
     save_report self str_of generate message_of today stamp articles w
     = (App.Done App.Saved, prompts, w') ->
     exists items old content doc reports text,
       App.analyze_with_gemini str_of generate message_of articles
       = (App.Done content, prompts)
       /\ fst (read_data self VNone w) = Ret (VDict items)
       /\ App.lookup_key "reports" items = Some (VDict old)
       /\ encode doc = (text, true)
       /\ persisted self w' = Some text
       /\ App.getitem doc "reports" = App.Done (VDict reports)
       /\ App.lookup_key today reports
          = Some (VDict [("content", VStr content);
                         ("sources", VList articles);
                         ("created_at", VStr stamp)])
       /\ (forall day, day <> today ->
                       App.lookup_key day reports = App.lookup_key day old)
       /\ (forall k, k <> "reports" ->
                     App.getitem doc k = App.getitem (VDict items) k))
  /\ (forall items content prompts,
        App.analyze_with_gemini str_of generate message_of articles
        = (App.Done content, prompts) ->
        fst (read_data self VNone w) = Ret (VDict items) ->
        items <> [] ->
        App.lookup_key "reports" items = None ->
        save_report self str_of generate message_of today stamp articles w
        = (App.Crash (App.KeyError "reports"), prompts,
           snd (read_data self VNone w))).
Proof.
  unfold save_report. split.
  - intros prompts w'.
    destruct (App.analyze_with_gemini str_of generate message_of articles)
      as [[content|u] sent]; [|discriminate].
    destruct (read_data self VNone w) as [[current_data|e] w1]; [|discriminate].
    destruct (truthy current_data); [|discriminate].
    destruct (App.with_report current_data today content stamp articles)
      as [doc|u] eqn:Hwith; [|discriminate].
    destruct (write_data self doc ("New report for " +:+ today) 3 w1)
      as [[[|]|e] w2] eqn:Hwrite; try discriminate. intros [= <- <-].
    apply write_true_persisted in Hwrite as (text & Henc & Hp).
    apply with_report_dict in Hwith as (items & old & -> & Hold & ->).
    eexists items, old, content, _, _, text.
    split; [reflexivity|]. split; [reflexivity|]. split; [exact Hold|].
    split; [exact Henc|]. split; [exact Hp|].
    split; [simpl; rewrite lookup_set_same; reflexivity|].
    split; [apply lookup_set_same|]. split.
    + intros day Hday. now apply lookup_set_other.
    + intros k Hk. simpl. now rewrite lookup_set_other.
  - intros items content prompts -> Hread Hne Hnone.
    assert (Htruthy : truthy (VDict items) = true)
      by (destruct items; [contradiction|reflexivity]).
    destruct (read_data self VNone w) as [r w1]. cbn [fst snd] in *. subst r.
    rewrite Htruthy. unfold App.with_report, App.getitem.
    rewrite Hnone. reflexivity.
Qed.

Lemma with_keyword_dict (current_data doc : value) (keyword : string) :
  App.with_keyword current_data keyword = App.Done doc ->
  exists items keywords,
    current_data = VDict items
    /\ App.lookup_key "keywords" items = Some (VList keywords)
    /\ doc = VDict (App.set_key "keywords"
                      (VList (keywords ++ [VStr keyword])) items).
Proof.
  unfold App.with_keyword.
  destruct current_data as [| | | | |items|]; try discriminate. simpl.
  destruct (App.lookup_key "keywords" items) as [[| | | |keywords| |]|] eqn:Hl;
    try discriminate.
  simpl. intros [= <-]. exists items, keywords. now rewrite Hl.
Qed.

(** X21: adding a keyword.  An input that is empty, or empty once
    stripped, never reaches the store.  When the keyword is reported
    saved, the store holds the encoding of the document read with the
    stripped input added at the end of [keywords] and every other key as
    it was; the keyword stored is not the empty string, so a list free of
    empty keywords stays free of them. *)
Theorem add_keyword_stores_stripped (self : GithubDB)
  (strip : string -> string) (data : value) (new_keyword : string)
  (w : world) :
  (new_keyword = EmptyString \/ strip new_keyword = EmptyString ->
   snd (add_keyword self strip data new_keyword w) = w
   /\ fst (add_keyword self strip data new_keyword w) <> App.Done App.Saved)
  /\ forall w',
       add_keyword self strip data new_keyword w = (App.Done App.Saved, w') ->
       strip new_keyword <> EmptyString
       /\ exists items keywords doc text,
            fst (read_data self VNone w) = Ret (VDict items)
            /\ App.lookup_key "keywords" items = Some (VList keywords)
            /\ encode doc = (text, true)
            /\ persisted self w' = Some text
            /\ App.getitem doc "keywords"
               = App.Done (VList (keywords ++ [VStr (strip new_keyword)]))
            /\ (forall k, k <> "keywords" ->
                          App.getitem doc k = App.getitem (VDict items) k)
            /\ (Forall (fun x => x <> VStr EmptyString) keywords ->
                Forall (fun x => x <> VStr EmptyString)
                       (keywords ++ [VStr (strip new_keyword)])).
Proof.
  unfold add_keyword. split.
  - intros [-> | Hstrip]; [simpl; split; [reflexivity|discriminate]|].
    destruct (String.eqb new_keyword EmptyString);
      [simpl; split; [reflexivity|discriminate]|].
    rewrite Hstrip. simpl. split; [reflexivity|discriminate].
  - intros w'.
    destruct (String.eqb new_keyword EmptyString); [discriminate|].
    destruct (String.eqb (strip new_keyword) EmptyString) eqn:Hstrip;
      [discriminate|].
    apply String.eqb_neq in Hstrip.
    destruct (App.obind _ _) as [[|]|u]; try discriminate.
    destruct (read_data self VNone w) as [[current_data|e] w1]; [|discriminate].
    destruct (truthy current_data); [|discriminate].
    destruct (App.with_keyword current_data (strip new_keyword))
      as [doc|u] eqn:Hwith; [|discriminate].
    destruct (write_data self doc "Add keyword" 3 w1)
      as [[[|]|e] w2] eqn:Hwrite; try discriminate. intros [= <-].
    apply write_true_persisted in Hwrite as (text & Henc & Hp).
    apply with_keyword_dict in Hwith as (items & kws & -> & Hkws & ->).
    split; [exact Hstrip|].
    eexists items, kws, _, text.
    split; [reflexivity|]. split; [exact Hkws|]. split; [exact Henc|].
    split; [exact Hp|]. split; [simpl; now rewrite lookup_set_same|]. split.
    + intros k Hk. simpl. now rewrite lookup_set_other.
    + intros Hfree. apply Forall_app. split; [exact Hfree|].
      constructor; [|constructor]. congruence.
Qed.

End Store.

(** ** Properties of the collector *)

Module AppFacts.
Import App.

Lemma starts_with_spec (k text : string) :
  starts_with k text = true <-> exists after, text = k +:+ after.
Proof.
  revert text. induction k as [|a k IH]; intros text; simpl.
  - split; [intros _; now exists text|reflexivity].
  - destruct text as [|b text].
    + split; [discriminate|]. intros [after [=]].
    + rewrite andb_true_iff, Ascii.eqb_eq, IH. split.
      * intros [-> [after ->]]. now exists after.
      * intros [after [= -> ->]]. eauto.
Qed.

Lemma contains_spec (k text : string) :
  contains k text = true <-> occurs k text.
Proof.
  unfold occurs. induction text as [|c text IH].
  - simpl. rewrite orb_false_r, starts_with_spec. split.
    + intros [after H]. exists EmptyString, after. exact H.
    + intros ([|c before] & after & H); simpl in H; [eauto|discriminate].
  - cbn [contains]. rewrite orb_true_iff, starts_with_spec, IH. split.
    + intros [[after H]|(before & after & H)].
      * exists EmptyString, after. exact H.
      * exists (String c before), after. simpl. now rewrite H.
    + intros ([|c' before] & after & H); simpl in H.
      * left. eauto.
      * right. injection H as _ H. eauto.
Qed.

Lemma matches_spec (keywords : list string) (e : entry) :
  matches keywords e = true
  <-> keywords = [] \/ exists k, In k keywords /\ occurs k (text_of e).
Proof.
  unfold matches, wanted. destruct keywords as [|k0 ks].
  - split; auto.
  - rewrite existsb_exists. split.
    + intros (k & Hin & Hk). right. exists k. now rewrite <- contains_spec.
    + intros [[=]|(k & Hin & Hk)]. exists k. now rewrite contains_spec.
Qed.

Lemma scan_complete (now : string) (keywords : list string) (es : list entry) :
  Forall (fun e => complete e = true) es ->
  forall articles,
    scan now keywords es articles
    = (Ret tt,
       articles ++ map (to_article now) (List.filter (matches keywords) es)).
Proof.
  induction 1 as [|e es He _ IH]; intros articles; simpl.
  - now rewrite app_nil_r.
  - unfold complete in He. unfold matches at 1. unfold text_of.
    destruct (title e) as [t|] eqn:Ht; [|discriminate].
    destruct (link e) as [l|] eqn:Hl; [|discriminate]. simpl.
    destruct (wanted keywords (text_content t e)).
    + rewrite IH. simpl. unfold to_article at 2. rewrite Ht, Hl. simpl.
      now rewrite <- app_assoc.
    + apply IH.
Qed.

Lemma collect_clean (parse : string -> result feed) (now : string)
  (keywords feeds : list string) :
  Forall (clean parse) feeds ->
  forall articles,
    collect parse now feeds keywords articles
    = articles
      ++ flat_map (fun url => map (to_article now)
                                (List.filter (matches keywords)
                                             (entries_read parse url)))
                  feeds.
Proof.
  induction 1 as [|url feeds Hclean _ IH]; intros articles; simpl.
  - now rewrite app_nil_r.
  - rewrite IH, app_assoc. f_equal.
    unfold clean, entries_read in *.
    destruct (parse url) as [f|e]; [|now rewrite app_nil_r].
    destruct (bozo f); [now rewrite app_nil_r|].
    now rewrite (scan_complete _ _ _ Hclean).
Qed.

Lemma scan_extends (now : string) (keywords : list string) (es : list entry) :
  forall articles,
    scan now keywords es articles
    = (fst (scan now keywords es []), articles ++ snd (scan now keywords es [])).
Proof.
  induction es as [|e es IH]; intros articles; simpl.
  - now rewrite app_nil_r.
  - destruct (title e) as [t|]; [|now rewrite app_nil_r].
    destruct (wanted keywords (text_content t e)); [|apply IH].
    destruct (link e) as [l|]; [|now rewrite app_nil_r].
    rewrite IH. symmetry. rewrite IH. simpl. now rewrite <- app_assoc.
Qed.

Lemma collect_extends (parse : string -> result feed) (now : string)
  (keywords feeds : list string) :
  forall articles,
    collect parse now feeds keywords articles
    = articles ++ collect parse now feeds keywords [].
Proof.
  induction feeds as [|url feeds IH]; intros articles; simpl.
  - now rewrite app_nil_r.
  - rewrite IH. symmetry. rewrite IH.
    destruct (parse url) as [f|e]; [|reflexivity].
    destruct (bozo f); [reflexivity|].
    rewrite (scan_extends now keywords (entries f) articles). simpl.
    now rewrite <- app_assoc.
Qed.

Lemma collect_app (parse : string -> result feed) (now : string)
  (keywords feeds1 feeds2 : list string) :
  forall articles,
    collect parse now (feeds1 ++ feeds2) keywords articles
    = collect parse now feeds2 keywords
        (collect parse now feeds1 keywords articles).
Proof.
  induction feeds1 as [|url feeds1 IH]; intros articles; simpl; [reflexivity|].
  apply IH.
Qed.

(** The articles collected are the contributions of the feeds, one feed
    after the other. *)
Lemma collect_contributions (parse : string -> result feed) (now : string)
  (keywords feeds : list string) :
  collect parse now feeds keywords []
  = flat_map (contribution parse now keywords) feeds.
Proof.
  induction feeds as [|url feeds IH]; [reflexivity|].
  cbn [flat_map]. rewrite <- IH.
  change (url :: feeds) with ([url] ++ feeds).
  rewrite collect_app. apply collect_extends.
Qed.

Lemma contribution_skipped (parse : string -> result feed) (now : string)
  (keywords : list string) (url : string) :
  skipped parse url = true -> contribution parse now keywords url = [].
Proof.
  unfold skipped, contribution. cbn [collect].
  destruct (parse url) as [f|e]; [|reflexivity].
  now intros ->.
Qed.

Lemma contribution_clean (parse : string -> result feed) (now : string)
  (keywords : list string) (url : string) :
  clean parse url ->
  contribution parse now keywords url
  = map (to_article now)
        (List.filter (matches keywords) (entries_read parse url)).
Proof.
  intros Hclean. unfold contribution.
  rewrite (collect_clean parse now keywords [url]) by (now constructor).
  cbn [flat_map app]. now rewrite app_nil_r.
Qed.

(** C7 (amended): [fetch_news] returns at most 30 articles: the first 30
    of what the feeds contribute, feed after feed in the order of the feed
    list, whatever the other feeds hold.  A feed that fails to load or
    that the parser flags contributes nothing.  A feed, any other one,
    whose entries carry a title and a link contributes, in order, the
    articles of its entries that match; and an entry matches exactly when
    the keyword list is empty or some keyword occurs in its
    title-plus-summary text. *)
Theorem fetch_news_filter (parse : string -> result feed) (now : string)
  (feeds keywords : list string) :
  (length (fetch_news parse now feeds keywords) <= 30)%nat
  /\ fetch_news parse now feeds keywords
     = firstn 30 (flat_map (contribution parse now keywords) feeds)
  /\ (forall url, skipped parse url = true ->
                  contribution parse now keywords url = [])
  /\ (forall url, clean parse url ->
                  contribution parse now keywords url
                  = map (to_article now)
                        (List.filter (matches keywords)
                                     (entries_read parse url)))
  /\ (forall e, matches keywords e = true
                <-> keywords = []
                    \/ exists k, In k keywords /\ occurs k (text_of e)).
Proof.
  split; [apply firstn_le_length|]. split; [|split; [|split]].
  - unfold fetch_news. now rewrite collect_contributions.
  - intros url. apply contribution_skipped.
  - intros url. apply contribution_clean.
  - apply matches_spec.
Qed.

End AppFacts.

(** * The statements at concrete inputs *)

Module Checks.
Import Samples.

Local Abbreviation write := (write_data Json.json_encode).
Local Abbreviation read := (read_data Json.json_encode Json.json_loads).

(** The end-to-end scenario: on an empty repository, a read with the seed
    document creates the blob and returns the seed; a write of the
    successor document followed by a read returns the successor. *)
Example bootstrap_then_update :
  let '(r0, w0) := read github seed (blank []) in
  let '(r1, w1) := write github visited "Increment visitor count" 3 w0 in
  let '(r2, w2) := read github VNone w1 in
  r0 = Ret seed /\ r1 = Ret true /\ r2 = Ret visited
  /\ blob_text <$> repo w0 !! "data.json" = Some (fst (Json.json_encode seed))
  /\ map is_write (calls w2) = [false; false; true; false; true; false].
Proof. vm_compute. repeat split. Qed.

(** The same on the local filesystem. *)
Example bootstrap_then_update_local :
  let '(r0, w0) := read local seed (blank []) in
  let '(r1, w1) := write local visited "Increment visitor count" 3 w0 in
  let '(r2, w2) := read local VNone w1 in
  r0 = Ret seed /\ r1 = Ret true /\ r2 = Ret visited
  /\ disk w0 !! "local_data.json" = Some (fst (Json.json_encode seed)).
Proof. vm_compute. repeat split. Qed.

(** Three conflicts in a row exhaust the default three attempts. *)
Example conflicts_exhaust_retries :
  let w := hosted "{}" [Quiet; Fault (GithubException 409);
                        Quiet; Fault (GithubException 409);
                        Quiet; Fault (GithubException 409); Quiet; Quiet] in
  let '(r, w') := write github visited "Add keyword" 3 w in
  r = Ret false /\ length (calls w') = 6%nat /\ repo w' = repo w.
Proof. vm_compute. repeat split. Qed.



Lemma write_no_retries_untouched_witness :
  write github seed "Initialize data.json" 0 (hosted "{}" one_race)
  = (Ret false, hosted "{}" one_race).
Proof.
  apply (write_no_retries_untouched Json.json_encode github seed
           "Initialize data.json" 0 (hosted "{}" one_race)).
  - reflexivity.
  - lia.
Defined.

Lemma read_auth_failure_witness :
  exists w',
    read github seed (hosted "{}" [Fault (GithubException 401)]) = (Ret VNone, w')
    /\ new_calls (hosted "{}" [Fault (GithubException 401)]) w'
       = [GetContents "data.json" (Raise (GithubException 401))]
    /\ repo w' = repo (hosted "{}" [Fault (GithubException 401)])
    /\ disk w' = disk (hosted "{}" [Fault (GithubException 401)]).
Proof.
  apply (read_auth_failure Json.json_encode Json.json_loads github seed
           (hosted "{}" [Fault (GithubException 401)]) 401 []).
  - reflexivity.
  - reflexivity.
  - left. reflexivity.
Defined.

Lemma read_missing_blob_witness :
  (exists w', read github VNone (blank []) = (Ret empty_dict, w'))
  /\ (forall d, fst (read github d (blank [])) <> Ret VNone).
Proof.
  apply (read_missing_blob Json.json_encode Json.json_loads github (blank [])).
  vm_compute. reflexivity.
Defined.

Lemma read_falsy_default_witness :
  exists w',
    read local empty_dict (blank []) = (Ret empty_dict, w')
    /\ read local VNone (blank []) = (Ret empty_dict, w')
    /\ Forall (fun c => is_write c = false) (new_calls (blank []) w').
Proof.
  apply (read_falsy_default Json.json_encode Json.json_loads local empty_dict
           (blank [])).
  - reflexivity.
  - vm_compute. reflexivity.
Defined.

Lemma read_local_cases_witness :
  exists v w',
    read local seed (stored "null" []) = (Ret v, w')
    /\ (v = VNone -> exists text, Json.json_loads text = Some VNone).
Proof.
  destruct (read_local_cases Json.json_encode Json.json_loads local seed
              (stored "null" []))
    as (v & w' & Hread & _ & _ & _ & Hnone).
  - reflexivity.
  - exists v, w'. split; [exact Hread|exact Hnone].
Defined.

(** The blob on GitHub holds a text that does not parse. *)
Lemma read_failure_result_witness :
  read github seed (hosted "{" [])
  = (Ret VNone, snd (get_contents "data.json" (hosted "{" []))).
Proof.
  apply (read_failure_result Json.json_encode Json.json_loads github seed
           (hosted "{" []) (snd (get_contents "data.json" (hosted "{" [])))).
  right. eexists. split.
  - vm_compute. reflexivity.
  - vm_compute. reflexivity.
Defined.


Lemma write_then_read_witness :
  exists w2,
    read github VNone
      (snd (write github visited "Increment visitor count" 3 (hosted "{}" one_race)))
    = (Ret visited, w2).
Proof.
  apply (write_then_read Json.json_encode Json.json_loads github visited
           "Increment visitor count" 3 VNone (hosted "{}" one_race)).
  - vm_compute. reflexivity.
  - vm_compute. reflexivity.
  - vm_compute. reflexivity.
Defined.

Lemma fetch_news_filter_witness :
  App.clean parse_three "ok"
  /\ ~ App.clean parse_three "cut"
  /\ App.contribution parse_three "now" ["bank"] "ok"
     = [App.to_article "now" headline; App.to_article "now" headline]
  /\ App.contribution parse_three "now" ["bank"] "flagged" = []
  /\ App.fetch_news parse_three "now" ["flagged"; "cut"; "ok"] ["bank"]
     = App.contribution parse_three "now" ["bank"] "cut"
       ++ [App.to_article "now" headline; App.to_article "now" headline].
Proof.
  destruct (AppFacts.fetch_news_filter parse_three "now"
              ["flagged"; "cut"; "ok"] ["bank"])
    as (_ & Hret & Hskip & Hclean & _).
  assert (Hok : App.clean parse_three "ok") by (repeat constructor).
  split; [exact Hok|]. split.
  - intros Hcut. inversion Hcut as [|? ? _ Hrest].
    inversion Hrest as [|? ? Huntitled _]. discriminate Huntitled.
  - split; [rewrite (Hclean "ok" Hok); vm_compute; reflexivity|].
    split; [apply Hskip; reflexivity|].
    rewrite Hret. cbn [flat_map]. rewrite (Hskip "flagged" eq_refl).
    rewrite (Hclean "ok" Hok). vm_compute. reflexivity.
Defined.

(** ** Where the specification and the code part *)

(** C3: on GitHub, a blob that does not exist and no default document:
    [read_data] returns the empty document, not [None]. *)
Lemma remote_missing_blob_gives_empty_dict :
  repo (blank []) !! file_path github = None
  /\ fst (read github VNone (blank [])) = Ret empty_dict
  /\ fst (read github VNone (blank [])) <> Ret VNone.
Proof. vm_compute. repeat split. discriminate. Qed.

(** C4: in local mode, a file that exists and does not parse:
    [read_data] returns the empty document, not [None]. *)
Lemma local_parse_failure_gives_empty_dict :
  disk (stored "{" []) !! local_file_path local = Some "{"
  /\ Json.json_loads "{" = None
  /\ fst (read local VNone (stored "{" [])) = Ret empty_dict
  /\ fst (read local VNone (stored "{" [])) <> Ret VNone.
Proof. vm_compute. repeat split. discriminate. Qed.


(** C9: in local mode, a file holding the JSON value null: [read_data]
    returns [None]. *)
Lemma local_null_file_gives_none :
  fst (read local seed (stored "null" [])) = Ret VNone.
Proof. vm_compute. reflexivity. Qed.

(** C7: a feed flagged by the parser: its entry matches (the keyword list
    is empty) and is not collected. *)
Lemma bozo_feed_entry_dropped :
  parse_bozo "https://example.org/rss"
  = Ret {| App.bozo := true; App.entries := [headline] |}
  /\ App.matches [] headline = true
  /\ App.collect parse_bozo "now" ["https://example.org/rss"] [] [] = []
  /\ App.fetch_news parse_bozo "now" ["https://example.org/rss"] [] = [].
Proof. vm_compute. repeat split. Qed.

End Checks.

(** ** Further properties of the collector and of the briefing *)

Module BriefingFacts.
Import App AppFacts.

(** X10: feeds are collected one after the other and independently: the
    articles of [feeds1 ++ feeds2] before the cut are those of [feeds1]
    followed by those of [feeds2], whatever the feeds hold.  So what
    [fetch_news] returns for [feeds1] is a prefix of what it returns when
    feeds are added at the end, and once the first feeds give 30 articles
    the later ones contribute nothing. *)
Theorem earlier_feeds_keep_their_place (parse : string -> result feed)
  (now : string) (feeds1 feeds2 keywords : list string) :
  collect parse now (feeds1 ++ feeds2) keywords []
  = collect parse now feeds1 keywords [] ++ collect parse now feeds2 keywords []
  /\ fetch_news parse now feeds1 keywords
     `prefix_of` fetch_news parse now (feeds1 ++ feeds2) keywords
  /\ ((30 <= length (collect parse now feeds1 keywords []))%nat ->
      fetch_news parse now (feeds1 ++ feeds2) keywords
      = fetch_news parse now feeds1 keywords).
Proof.
  assert (Happ : collect parse now (feeds1 ++ feeds2) keywords []
                 = collect parse now feeds1 keywords []
                   ++ collect parse now feeds2 keywords [])
    by (rewrite collect_app; apply collect_extends).
  split; [exact Happ|]. unfold fetch_news. rewrite Happ, firstn_app. split.
  - now apply prefix_app_r.
  - intros Hfull.
    replace (30 - length (collect parse now feeds1 keywords []))%nat
      with O by lia.
    apply app_nil_r.
Qed.

Lemma scan_app_complete (now : string) (keywords : list string)
  (es tail : list entry) :
  Forall (fun e => complete e = true) es ->
  forall articles,
    scan now keywords (es ++ tail) articles
    = scan now keywords tail
        (articles
         ++ map (to_article now) (List.filter (matches keywords) es)).
Proof.
  induction 1 as [|e es He _ IH]; intros articles.
  - simpl. now rewrite app_nil_r.
  - unfold complete in He.
    destruct (title e) as [t|] eqn:Ht; [|discriminate].
    destruct (link e) as [l|] eqn:Hl; [|discriminate].
    assert (Hm : matches keywords e = wanted keywords (text_content t e))
      by (unfold matches, text_of; now rewrite Ht).
    cbn [app scan List.filter]. rewrite Ht, Hl, Hm.
    destruct (wanted keywords (text_content t e)).
    + rewrite IH. cbn [map]. unfold to_article at 2. rewrite Ht, Hl.
      cbn [get]. now rewrite <- app_assoc.
    + apply IH.
Qed.

(** X11: an entry without a title stops the collection of its feed: the
    matching entries before it are kept, the entries after it are dropped
    whatever they hold, and the next feeds are collected as usual.  The
    same happens at an entry that matches and has no link; one that does
    not match is passed over. *)
Theorem malformed_entry_cuts_feed (parse : string -> result feed)
  (now url : string) (feeds keywords : list string)
  (before after : list entry) (bad : entry) :
  parse url = Ret {| bozo := false; entries := before ++ bad :: after |} ->
  Forall (fun e => complete e = true) before ->
  complete bad = false ->
  collect parse now (url :: feeds) keywords []
  = map (to_article now) (List.filter (matches keywords) before)
    ++ (if matches keywords bad || negb (bool_decide (is_Some (title bad)))
        then []
        else snd (scan now keywords after []))
    ++ collect parse now feeds keywords [].
Proof.
  intros Hparse Hbefore Hbad. cbn [collect]. rewrite Hparse. cbn [bozo entries].
  rewrite collect_extends. rewrite app_assoc. f_equal.
  rewrite scan_app_complete by assumption. cbn [app scan].
  unfold complete in Hbad. unfold matches, text_of.
  destruct (title bad) as [t|] eqn:Ht; cbn [get].
  - rewrite bool_decide_eq_true_2 by eauto. cbn [negb]. rewrite orb_false_r.
    destruct (wanted keywords (text_content t bad)).
    + destruct (link bad); [discriminate|]. cbn [snd]. now rewrite app_nil_r.
    + rewrite scan_extends. reflexivity.
  - rewrite bool_decide_eq_false_2 by (intros [? ?]; discriminate).
    rewrite orb_true_r. cbn [snd]. now rewrite app_nil_r.
Qed.




(** *** Articles and the briefing *)

Lemma scan_articles (now : string) (keywords : list string) (es : list entry) :
  forall articles,
    Forall is_article articles ->
    Forall is_article (snd (scan now keywords es articles)).
Proof.
  induction es as [|e es IH]; intros articles Hacc; simpl; [exact Hacc|].
  destruct (title e) as [t|]; [|exact Hacc].
  destruct (wanted keywords (text_content t e)); [|now apply IH].
  destruct (link e) as [l|]; [|exact Hacc].
  apply IH. apply Forall_app. split; [exact Hacc|].
  constructor; [|constructor]. unfold is_article. eauto.
Qed.

Lemma collect_articles (parse : string -> result feed) (now : string)
  (keywords feeds : list string) :
  forall articles,
    Forall is_article articles ->
    Forall is_article (collect parse now feeds keywords articles).
Proof.
  induction feeds as [|url feeds IH]; intros articles Hacc; simpl;
    [exact Hacc|].
  apply IH. destruct (parse url) as [f|e]; [|exact Hacc].
  destruct (bozo f); [exact Hacc|]. now apply scan_articles.
Qed.

Lemma fetch_news_articles (parse : string -> result feed) (now : string)
  (feeds keywords : list string) :
  Forall is_article (fetch_news parse now feeds keywords).
Proof.
  unfold fetch_news. apply Forall_take. apply collect_articles. constructor.
Qed.

Lemma append_assoc (a b c : string) : (a +:+ b) +:+ c = a +:+ b +:+ c.
Proof.
  induction a as [|x a IH]; [reflexivity|].
  exact (f_equal (String x) IH).
Qed.

Lemma occurs_here (k after : string) : occurs k (k +:+ after).
Proof. exists EmptyString, after. reflexivity. Qed.

Lemma occurs_later (k before text : string) :
  occurs k text -> occurs k (before +:+ text).
Proof.
  intros (a & b & ->). exists (before +:+ a), b. now rewrite append_assoc.
Qed.

Lemma occurs_earlier (k text after : string) :
  occurs k text -> occurs k (text +:+ after).
Proof.
  intros (a & b & ->). exists a, (b +:+ after). now rewrite !append_assoc.
Qed.

(** The loop that builds the headlines, on articles of the collector. *)
Lemma headlines_articles (str_of : value -> string) (articles : list value) :
  Forall is_article articles ->
  forall idx news_text,
  exists lines,
    headlines str_of idx articles news_text = Done (news_text +:+ lines)
    /\ forall i t l p s,
         articles !! i = Some (article t l p s) ->
         occurs (headline_line (idx + i) t) lines.
Proof.
  induction 1 as [|a articles (t & l & p & s & ->) _ IH]; intros idx news_text.
  - exists EmptyString. split.
    + simpl. f_equal. induction news_text as [|c n IHn]; [reflexivity|].
      exact (f_equal (String c) IHn).
    + intros i ? ? ? ? H. discriminate.
  - cbn [headlines]. change (getitem (article t l p s) "title") with (Done (VStr t)).
    cbn [format_value].
    destruct (IH (S idx) (news_text +:+ Json.string_of_Z (Z.of_nat idx + 1)
                          +:+ ". " +:+ t +:+ String Json.newline EmptyString))
      as (lines & Hl & Hocc).
    exists (headline_line idx t +:+ lines). split.
    + rewrite Hl. f_equal. unfold headline_line. now rewrite !append_assoc.
    + intros [|i] t' l' p' s' Hi.
      * injection Hi as <- _ _ _. rewrite Nat.add_0_r. apply occurs_here.
      * apply occurs_later. replace (idx + S i)%nat with (S idx + i)%nat by lia.
        now apply (Hocc i t' l' p' s').
Qed.

(** X13: the briefing of what the collector returns never fails, whatever
    the feeds hold and whatever the model does: [analyze_with_gemini]
    returns a text, after at most one call of the model, and with no call
    at all when no article was collected. *)
Theorem briefing_of_collected_news (parse : string -> result feed)
  (now : string) (feeds keywords : list string) (str_of : value -> string)
  (generate : string -> result string) (message_of : exn -> string) :
  let articles := fetch_news parse now feeds keywords in
  let '(r, prompts) := analyze_with_gemini str_of generate message_of articles in
  (exists text, r = Done text)
  /\ (length prompts <= 1)%nat
  /\ (articles = [] -> r = Done no_news /\ prompts = []).
Proof.
  intros articles.
  pose proof (fetch_news_articles parse now feeds keywords) as Harts.
  fold articles in Harts. clearbody articles.
  unfold analyze_with_gemini. destruct articles as [|a rest].
  - repeat split; eauto.
  - destruct (headlines_articles str_of (a :: rest) Harts 0 EmptyString)
      as (lines & -> & _).
    destruct (generate _) as [text|e]; simpl;
      (split; [eauto|split; [lia|discriminate]]).
Qed.

(** The loop appends exactly the numbered lines of the titles, in order. *)
Lemma headlines_lines (str_of : value -> string) (articles : list value) :
  Forall is_article articles ->
  forall idx news_text,
    headlines str_of idx articles news_text
    = Done (news_text +:+ headline_lines idx (map title_of articles)).
Proof.
  induction 1 as [|a articles (t & l & p & s & ->) _ IH]; intros idx news_text.
  - cbn [headlines map headline_lines]. now rewrite append_empty.
  - cbn [headlines map headline_lines].
    change (getitem (article t l p s) "title") with (Done (VStr t)).
    change (title_of (article t l p s)) with t.
    cbn [format_value]. rewrite IH. f_equal.
    unfold headline_line. now rewrite !append_assoc.
Qed.

(** X14: when articles were collected, the one prompt sent to the model
    is exactly the fixed head, then one line per article in the order of
    the list, each line made of the article's number (from 1), a full
    stop, a space, the article's title and a line break, then the fixed
    foot, and nothing else; the result is the model's text, or the
    failure notice followed by the error's message when the model call
    raises. *)
Theorem prompt_lists_every_title (str_of : value -> string)
  (generate : string -> result string) (message_of : exn -> string)
  (articles : list value) :
  Forall is_article articles ->
  articles <> [] ->
  analyze_with_gemini str_of generate message_of articles
  = (match generate (prompt_head
                     +:+ headline_lines 0 (map title_of articles)
                     +:+ prompt_foot) with
     | Ret text => Done text
     | Raise e => Done (analysis_failed +:+ message_of e)
     end,
     [prompt_head +:+ headline_lines 0 (map title_of articles)
      +:+ prompt_foot]).
Proof.
  intros Harts Hne.
  unfold analyze_with_gemini. destruct articles as [|a rest]; [contradiction|].
  rewrite (headlines_lines str_of (a :: rest) Harts 0 EmptyString).
  change (EmptyString +:+ ?x) with x.
  now destruct (generate _).
Qed.

End BriefingFacts.

(** * The further statements at concrete inputs *)

Module MoreChecks.
Import Samples.

Local Abbreviation write := (write_data Json.json_encode).
Local Abbreviation read := (read_data Json.json_encode Json.json_loads).
Local Abbreviation visit := (count_visit Json.json_encode Json.json_loads).
Local Abbreviation collect_today :=
  (collect_news Json.json_encode Json.json_loads).
Local Abbreviation add := (add_feed Json.json_encode Json.json_loads).
Local Abbreviation remove := (remove_feed Json.json_encode Json.json_loads).

Example busy_reads_back : Json.json_loads busy_text = Some busy.
Proof. vm_compute. reflexivity. Qed.

(** A visit on the stored document: the count goes from 41 to 42. *)
Example visit_counts :
  let '(r, w') := visit github false seed (hosted busy_text []) in
  exists doc,
    r = App.Done (true, doc)
    /\ App.getitem doc "visitors" = App.Done (VInt 42)
    /\ (blob_text <$> repo w' !! "data.json") = Some (fst (Json.json_encode doc))
    /\ length (calls w') = 3%nat.
Proof. vm_compute. eexists. repeat split. Qed.

(** Adding a feed, refusing a bad one, ignoring one the page lists. *)
Example add_feed_cases :
  fst (add github busy "https://example.org/new" (hosted busy_text []))
  = App.Done App.Saved
  /\ add github busy "ftp://example.org/new" (hosted busy_text [])
     = (App.Done App.Rejected, hosted busy_text [])
  /\ add github busy "http://example.org/feed" (hosted busy_text [])
     = (App.Done App.Ignored, hosted busy_text [])
  /\ read github VNone
       (snd (add github busy "https://example.org/new" (hosted busy_text [])))
     = (Ret (VDict [("feeds", VList [VStr "https://example.org/rss";
                                     VStr "http://example.org/feed";
                                     VStr "https://example.org/new"]);
                    ("keywords", VList []); ("visitors", VInt 41);
                    ("reports", VDict []);
                    ("collected_news",
                     VDict [("2024-01-01",
                             VList [App.to_article "now" headline])])]),
        snd (read github VNone
               (snd (add github busy "https://example.org/new"
                       (hosted busy_text []))))).
Proof. vm_compute. repeat split. Qed.

(** Removing a feed, and collecting a second day beside the first. *)
Example remove_and_collect :
  App.getitem
    (match fst (read github VNone
                  (snd (remove github "https://example.org/rss"
                          (hosted busy_text [])))) with
     | Ret doc => doc
     | Raise _ => VNone
     end) "feeds"
  = App.Done (VList [VStr "http://example.org/feed"])
  /\ App.obind
       (App.getitem
          (match fst (read github VNone
                        (snd (collect_today github parse_clean "now"
                                "2024-01-02" "noon" ["u"] ["bank"]
                                (hosted busy_text [])))) with
           | Ret doc => doc
           | Raise _ => VNone
           end) "collected_news")
       (fun c => App.Done (match c with
                           | VDict items => map fst items
                           | _ => []
                           end))
     = App.Done ["2024-01-01"; "2024-01-02"; "2024-01-02_collected_at"].
Proof. vm_compute. repeat split. Qed.


Lemma quiet_write_then_read_witness :
  exists w1 w2,
    write local visited "Increment visitor count" 3 (blank []) = (Ret true, w1)
    /\ read local VNone w1 = (Ret visited, w2)
    /\ persisted local w2 = Some (fst (Json.json_encode visited))
    /\ map is_write (new_calls (blank []) w2) = [use_local local; true; false].
Proof.
  apply (quiet_write_then_read Json.json_encode Json.json_loads local visited
           VNone "Increment visitor count" (fst (Json.json_encode visited)) 3
           (blank [])).
  - reflexivity.
  - vm_compute. reflexivity.
  - vm_compute. reflexivity.
  - lia.
Defined.

Lemma write_twice_keeps_last_witness :
  exists w1 w2,
    write github seed "first" 3 (hosted "{}" []) = (Ret true, w1)
    /\ write github visited "second" 1 w1 = (Ret true, w2)
    /\ persisted github w1 = Some (fst (Json.json_encode seed))
    /\ persisted github w2 = Some (fst (Json.json_encode visited))
    /\ length (new_calls (hosted "{}" []) w2) = 4%nat.
Proof.
  apply (write_twice_keeps_last Json.json_encode github seed visited
           "first" "second" (fst (Json.json_encode seed))
           (fst (Json.json_encode visited)) 3 1 (hosted "{}" [])).
  - reflexivity.
  - vm_compute. reflexivity.
  - vm_compute. reflexivity.
  - lia.
  - lia.
Defined.

Lemma bootstrap_creates_blob_witness :
  exists w',
    read github seed (blank []) = (Ret seed, w')
    /\ persisted github w' = Some (fst (Json.json_encode seed))
    /\ length (filter (fun c => is_write c = true) (new_calls (blank []) w'))
       = (if use_local github then 2 else 1)%nat
    /\ forall d' v, Json.json_loads (fst (Json.json_encode seed)) = Some v ->
                    exists w'', read github d' w' = (Ret v, w'').
Proof.
  apply (bootstrap_creates_blob Json.json_encode Json.json_loads github seed
           (fst (Json.json_encode seed)) (blank [])).
  - reflexivity.
  - reflexivity.
  - reflexivity.
  - vm_compute. reflexivity.
Defined.

Lemma bootstrap_unencodable_default_witness :
  exists w',
    read local unencodable (blank []) = (Ret unencodable, w')
    /\ persisted local w'
       = if use_local local then Some (fst (Json.json_encode unencodable))
         else None.
Proof.
  apply (bootstrap_unencodable_default Json.json_encode Json.json_loads local
           unencodable (fst (Json.json_encode unencodable)) (blank [])).
  - reflexivity.
  - reflexivity.
  - reflexivity.
  - vm_compute. reflexivity.
Defined.

Lemma stale_token_is_refused_witness :
  exists w',
    write github visited "Add keyword" 1 (hosted "{}" one_race)
    = (Ret (1 <? 1), w')
    /\ persisted github w'
       = Some (if 1 <? 1 then fst (Json.json_encode visited) else "{ }")
    /\ length (new_calls (hosted "{}" one_race) w')
       = if 1 <? 1 then 4%nat else 2%nat.
Proof.
  apply (stale_token_is_refused Json.json_encode github visited "Add keyword"
           (fst (Json.json_encode visited)) "{ }" [Quiet; Quiet]
           (Blob "{}" 0) 1 (hosted "{}" one_race)).
  - reflexivity.
  - reflexivity.
  - discriminate.
  - reflexivity.
  - reflexivity.
  - vm_compute. reflexivity.
  - lia.
Defined.

Lemma create_race_is_not_retried_witness :
  exists w',
    write github seed "Initialize data.json" 3 (blank one_race) = (Ret false, w')
    /\ persisted github w' = Some "{ }"
    /\ script w' = [Quiet; Quiet]
    /\ length (new_calls (blank one_race) w') = 2%nat.
Proof.
  apply (create_race_is_not_retried Json.json_encode github seed
           "Initialize data.json" (fst (Json.json_encode seed)) "{ }"
           [Quiet; Quiet] 3 (blank one_race)).
  - reflexivity.
  - reflexivity.
  - reflexivity.
  - vm_compute. reflexivity.
  - lia.
Defined.

Lemma read_existing_is_read_only_witness :
  exists c,
    new_calls (hosted "{" []) (snd (read github seed (hosted "{" []))) = [c]
    /\ is_write c = false /\ on_blob github c = true.
Proof.
  apply (read_existing_is_read_only Json.json_encode Json.json_loads github
           seed (hosted "{" [])).
  intros H. vm_compute in H. discriminate H.
Defined.

Lemma malformed_entry_cuts_feed_witness :
  App.collect parse_cut "now" ["https://example.org/rss"] ["bank"] []
  = [App.to_article "now" headline].
Proof.
  rewrite (BriefingFacts.malformed_entry_cuts_feed parse_cut "now"
             "https://example.org/rss" [] ["bank"] [headline] [headline]
             untitled).
  - vm_compute. reflexivity.
  - reflexivity.
  - repeat constructor.
  - reflexivity.
Defined.


Lemma prompt_lists_every_title_witness :
  App.analyze_with_gemini (fun _ => EmptyString) (fun _ => Raise ConnectionError)
    (fun _ => "timeout")
    [App.to_article "now" headline; App.to_article "now" other]
  = (App.Done (App.analysis_failed +:+ "timeout"),
     [App.prompt_head
      +:+ "1. Rates rise" +:+ String Json.newline EmptyString
      +:+ "2. Weather" +:+ String Json.newline EmptyString
      +:+ App.prompt_foot]).
Proof.
  apply (BriefingFacts.prompt_lists_every_title (fun _ => EmptyString)
           (fun _ => Raise ConnectionError) (fun _ => "timeout")
           [App.to_article "now" headline; App.to_article "now" other]).
  - repeat constructor; unfold App.is_article, App.to_article; simpl; eauto.
  - discriminate.
Defined.

Lemma collected_day_is_offered_witness :
  exists doc text days,
    Json.json_encode doc = (text, true)
    /\ persisted github
         (snd (collect_today github parse_clean "now" "2024-01-02" "noon"
                 ["u"] ["bank"] (hosted busy_text [])))
       = Some text
    /\ App.date_keys doc = App.Done days
    /\ In "2024-01-02" days
    /\ ~ In ("2024-01-02" +:+ "_collected_at") days
    /\ Forall (fun day => App.ends_with "_collected_at" day = false) days.
Proof.
  apply (collected_day_is_offered Json.json_encode Json.json_loads github
           parse_clean "now" "2024-01-02" "noon" ["u"] ["bank"]
           (hosted busy_text [])).
  - vm_compute. reflexivity.
  - vm_compute. reflexivity.
Defined.

(** A keyword is stored without the blanks around it (here [strip] drops
    one blank at each end), and a blank one is not stored. *)
Example add_keyword_cases :
  let strip := fun s : string =>
    match s with
    | String " " (String c (String " " EmptyString)) => String c EmptyString
    | String " " EmptyString => EmptyString
    | _ => s
    end in
  let add_kw := add_keyword Json.json_encode Json.json_loads github strip in
  add_kw busy " " (hosted busy_text []) = (App.Done App.Ignored, hosted busy_text [])
  /\ fst (add_kw busy " x " (hosted busy_text [])) = App.Done App.Saved
  /\ App.obind
       (match fst (read github VNone (snd (add_kw busy " x " (hosted busy_text [])))) with
        | Ret doc => App.Done doc
        | Raise e => App.Crash (App.Uncaught e)
        end)
       (fun doc => App.getitem doc "keywords")
     = App.Done (VList [VStr "x"]).
Proof. vm_compute. repeat split. Qed.

(** A report is saved under the day; a stored document without [reports]
    makes the handler fail with [KeyError]. *)
Example save_report_cases :
  let report :=
    save_report Json.json_encode Json.json_loads github (fun _ => EmptyString)
      (fun _ => Ret "briefing") (fun _ => EmptyString) "2024-01-01" "noon"
      [App.to_article "now" headline] in
  fst (fst (report (hosted busy_text []))) = App.Done App.Saved
  /\ length (snd (fst (report (hosted busy_text [])))) = 1%nat
  /\ App.obind
       (match fst (read github VNone (snd (report (hosted busy_text [])))) with
        | Ret doc => App.Done doc
        | Raise e => App.Crash (App.Uncaught e)
        end)
       (fun doc => App.obind (App.getitem doc "reports")
                     (fun r => App.obind (App.getitem r "2024-01-01")
                                 (fun d => App.getitem d "content")))
     = App.Done (VStr "briefing")
  /\ fst (fst (report (hosted (fst (Json.json_encode
                                       (VDict [("visitors", VInt 1)]))) [])))
     = App.Crash (App.KeyError "reports").
Proof. vm_compute. repeat split. Qed.

End MoreChecks.
